(** * Bridge: the TradingView alert-to-order pipeline

    A shallow embedding of [backend/app/main.py], [backend/app/database.py]
    and [backend/app/models.py].  Python floats are IEEE binary64 values
    ([PrimFloat.float]); the module-level dict [exchange_clients] and the
    Redis keyspace are finite maps in an explicit program state; Python
    exceptions are an outcome threaded through a small state-and-error
    monad.  Everything outside the process (the clock, Fernet decryption,
    the ccxt constructors and the three exchange calls) is a field of a
    [World] record, one world per webhook invocation. *)

From Stdlib Require Import ZArith String Ascii List Floats Sorted.
Set Warnings "-inexact-float".
From stdpp Require Import base option gmap strings.

Local Open Scope string_scope.
Local Open Scope list_scope.

(** ** Python values *)

(** [bool(x)] for a float: false exactly on [0.0] and [-0.0]; a NaN is true. *)
Definition float_truthy (x : float) : bool := negb (PrimFloat.eqb x 0%float).

(** The value behind an [Optional[float]] when Python takes it for true:
    [None] and a zero are false. *)
Definition truthy_value (x : option float) : option float :=
  match x with
  | Some v => if float_truthy v then Some v else None
  | None => None
  end.

(** [bool(x)] for an [Optional[float]]. *)
Definition truthy (x : option float) : bool :=
  match truthy_value x with
  | Some _ => true
  | None => false
  end.

(** [l[i]] on a list. *)
Definition py_index {A} (l : list A) (i : nat) : string + A :=
  match l !! i with
  | Some a => inr a
  | None => inl "list index out of range"
  end.

(** [s.split(sep)] for a one-character separator. *)
Fixpoint split (sep : ascii) (s : string) : list string :=
  match s with
  | EmptyString => [EmptyString]
  | String ch rest =>
      if Ascii.eqb ch sep then EmptyString :: split sep rest
      else match split sep rest with
           | piece :: pieces => String ch piece :: pieces
           | [] => [String ch EmptyString]
           end
  end.

(** ** Exceptions

    The handler tells [fastapi.HTTPException] apart from every other
    exception, so two constructors are enough; [Exception msg] carries
    [str(e)]. *)
Inductive exn : Type :=
| HTTPException (status_code : Z) (detail : string)
| Exception (msg : string).

Inductive outcome (A : Type) : Type :=
| Ok (a : A)
| Raise (e : exn).
Arguments Ok {A} a.
Arguments Raise {A} e.

(** ** models.py *)

(** [AlertConfigModel.dict()] as it comes back from [json.loads]: the enum
    fields are plain strings again. *)
Record AlertConfig : Type := {
  cfg_name : string;
  cfg_exchange : string;
  cfg_symbol : string;
  cfg_order_type : string;
  cfg_position_side : string;
  cfg_quantity : option float;
  cfg_quantity_percentage : option float;
  cfg_price : option float;
  cfg_stop_loss : option float;
  cfg_take_profit : option float;
  cfg_description : option string
}.

(** [TradingViewAlertModel]; the handler reads [config_name], [user_id] and
    [price] only. *)
Record TradingViewAlertModel : Type := {
  alert_config_name : string;
  alert_user_id : string;
  alert_price : option float;
  alert_volume : option float;
  alert_time : option string;
  alert_exchange : option string;
  alert_symbol : option string;
  alert_message : option string
}.

(** The dict an exchange returns from [create_order]. *)
Definition Receipt : Type := gmap string string.

Record OrderResultModel : Type := {
  res_success : bool;
  res_order_id : option string;
  res_message : option string;
  res_details : option Receipt;
  res_timestamp : string
}.

(** ** The exchange side *)

(** A ccxt client object.  [client_id] stands for the identity of the Python
    object: every construction takes a fresh one. *)
Record Client : Type := {
  client_id : nat;
  client_exchange : string;
  client_apiKey : string;
  client_secret : string
}.

(** The keyword arguments of one [exchange.create_order(...)] call. *)
Record OrderRequest : Type := {
  req_symbol : string;
  req_type : string;
  req_side : string;
  req_amount : float;
  req_price : option float;
  req_params : gmap string float
}.

(** [fetch_balance()] restricted to what the handler reads: the currencies
    present and the ['free'] entry of each ([None] when the exchange leaves
    it null, on which [float(...)] raises). *)
Definition Balance : Type := gmap string (option float).

(** ** database.py: the Redis keyspace *)

(** The [history_data] dict of the handler.  A key that the failure path
    leaves out reads as [None]. *)
Record HistoryData : Type := {
  hist_config_name : string;
  hist_symbol : option string;
  hist_side : option string;
  hist_quantity : option float;
  hist_price : option float;
  hist_timestamp : string;
  hist_success : bool;
  hist_order_id : option string;
  hist_details : option Receipt;
  hist_message : option string
}.

(** The JSON documents the three writers of database.py store. *)
Inductive RedisValue : Type :=
| StoredKeys (api_key_enc api_secret_enc : string)
| StoredConfig (config : AlertConfig)
| StoredHistory (alert_data : HistoryData).

(** ** What the process observes of the outside *)

Inductive Event : Type :=
| VaultRead (user_id exchange : string)
| ClientConstructed (client : Client)
| FetchBalance (client : Client)
| FetchTicker (client : Client) (symbol : string)
| CreateOrder (client : Client) (request : OrderRequest).

Record World : Type := {
  (** [datetime.now().isoformat()]; read once per invocation *)
  now : string;
  (** [Some msg]: every Redis command raises [redis.RedisError(msg)] *)
  redis_down : option string;
  (** [cipher_suite.decrypt]; [None] is [InvalidToken] *)
  fernet_decrypt : string -> option string;
  (** [getattr(ccxt, name)({...})]; [Some msg] is the exception raised *)
  ccxt_construct : string -> string -> string -> option string;
  exchange_fetch_balance : Client -> string + Balance;
  (** the ['last'] entry of the ticker *)
  exchange_fetch_ticker : Client -> string -> string + option float;
  exchange_create_order : Client -> OrderRequest -> string + Receipt
}.

(** ** Program state *)

Record State : Type := {
  (** the module-level cache [exchange_clients = {}] *)
  exchange_clients : gmap string Client;
  redis : gmap string RedisValue;
  (** number of client objects constructed so far *)
  constructed : nat;
  (** calls that left the process, oldest first *)
  trace : list Event
}.

Definition M (A : Type) : Type := State -> outcome A * State.

Definition ret {A} (a : A) : M A := fun st => (Ok a, st).
Definition raise {A} (e : exn) : M A := fun st => (Raise e, st).
Definition bind {A B} (m : M A) (k : A -> M B) : M B :=
  fun st =>
    match m st with
    | (Ok a, st') => k a st'
    | (Raise e, st') => (Raise e, st')
    end.

Notation "'let!' x ':=' m 'in' k" := (bind m (fun x => k))
  (at level 10, x name, m at level 100, k at level 200).

Definition emit (ev : Event) : M unit :=
  fun st => (Ok tt, {| exchange_clients := exchange_clients st;
                       redis := redis st;
                       constructed := constructed st;
                       trace := trace st ++ [ev] |}).

(** Lift an answer that may be an error; [inl msg] raises an exception that
    is not an [HTTPException] and whose [str] is [msg]. *)
Definition lift {A} (r : string + A) : M A :=
  match r with
  | inl msg => raise (Exception msg)
  | inr a => ret a
  end.

(** [float(x)] on a value that may be [None]. *)
Definition py_float (x : option float) : M float :=
  match x with
  | Some v => ret v
  | None => raise (Exception "float() argument must be a string or a real number, not 'NoneType'")
  end.

(** [x / y] on floats: [ZeroDivisionError] on a zero divisor. *)
Definition py_truediv (x y : float) : M float :=
  if PrimFloat.eqb y 0%float then raise (Exception "float division by zero")
  else ret (x / y)%float.

(** ** database.py *)

Definition redis_get (w : World) (key : string) : M (option RedisValue) :=
  fun st =>
    match redis_down w with
    | Some msg => (Raise (Exception msg), st)
    | None => (Ok (redis st !! key), st)
    end.

(** [redis_client.set] overwrites whatever the key holds. *)
Definition redis_set (w : World) (key : string) (v : RedisValue) : M bool :=
  fun st =>
    match redis_down w with
    | Some msg => (Raise (Exception msg), st)
    | None => (Ok true, {| exchange_clients := exchange_clients st;
                           redis := <[key := v]> (redis st);
                           constructed := constructed st;
                           trace := trace st |})
    end.

Definition decrypt_data (w : World) (data : string) : M string :=
  match fernet_decrypt w data with
  | Some plain => ret plain
  | None => raise (Exception "")
  end.

(** The returned dict is [None] for [{}] and the pair
    [(api_key, api_secret)] otherwise. *)
Definition get_exchange_api_key (w : World) (user_id exchange : string)
  : M (option (string * string)) :=
  let key := "user:" +:+ user_id +:+ ":exchange:" +:+ exchange in
  let! _ := emit (VaultRead user_id exchange) in
  let! data := redis_get w key in
  match data with
  | None => ret None
  | Some (StoredKeys api_key_enc api_secret_enc) =>
      let! api_key := decrypt_data w api_key_enc in
      let! api_secret := decrypt_data w api_secret_enc in
      ret (Some (api_key, api_secret))
  | Some _ => raise (Exception "'api_key'")
  end.

(** [None] stands for the empty dict. *)
Definition get_alert_config (w : World) (user_id config_name : string)
  : M (option RedisValue) :=
  let key := "user:" +:+ user_id +:+ ":alert_config:" +:+ config_name in
  redis_get w key.

Definition save_alert_history (w : World) (user_id : string)
    (alert_data : HistoryData) : M bool :=
  let alert_id := "alert:" +:+ user_id +:+ ":" +:+ hist_timestamp alert_data in
  redis_set w alert_id (StoredHistory alert_data).

(** ** main.py: the client cache *)

(** [exchange_class({...})]: a new object. *)
Definition new_client (exchange_name api_key api_secret : string) : M Client :=
  fun st =>
    let client := {| client_id := constructed st;
                     client_exchange := exchange_name;
                     client_apiKey := api_key;
                     client_secret := api_secret |} in
    (Ok client, {| exchange_clients := exchange_clients st;
                   redis := redis st;
                   constructed := S (constructed st);
                   trace := trace st ++ [ClientConstructed client] |}).

(** [exchange_clients[client_key] = client] *)
Definition cache_client (client_key : string) (client : Client) : M unit :=
  fun st =>
    (Ok tt, {| exchange_clients := <[client_key := client]> (exchange_clients st);
               redis := redis st;
               constructed := constructed st;
               trace := trace st |}).

Definition get_exchange_client (w : World) (user_id exchange_name : string)
  : M Client :=
  fun st =>
    let client_key := user_id +:+ ":" +:+ exchange_name in
    match exchange_clients st !! client_key with
    | Some client => (Ok client, st)
    | None =>
        (let! credentials := get_exchange_api_key w user_id exchange_name in
         match credentials with
         | None =>
             raise (HTTPException 404
                      ("API keys not found for exchange " +:+ exchange_name))
         | Some (api_key, api_secret) =>
             match ccxt_construct w exchange_name api_key api_secret with
             | Some msg =>
                 raise (HTTPException 500
                          ("Error creating exchange client: " +:+ msg))
             | None =>
                 let! client := new_client exchange_name api_key api_secret in
                 let! _ := cache_client client_key client in
                 ret client
             end
         end) st
    end.

(** ** main.py: the webhook handler *)

(** [side = "buy" if config["position_side"] == "long" else "sell"] *)
Definition order_side (position_side : string) : string :=
  if String.eqb position_side "long" then "buy" else "sell".

(** The block under [# Determine quantity]: [None] when neither branch of
    the [if]/[elif] is taken. *)
Definition determine_quantity (w : World) (alert : TradingViewAlertModel)
    (config : AlertConfig) (exchange : Client) : M (option float) :=
  match truthy_value (cfg_quantity config) with
  | Some quantity => ret (Some quantity)
  | None =>
      match truthy_value (cfg_quantity_percentage config) with
      | Some quantity_percentage =>
          let! _ := emit (FetchBalance exchange) in
          let! balance := lift (exchange_fetch_balance w exchange) in
          let! base_currency :=
            lift (py_index (split "/" (cfg_symbol config)) 1) in
          match balance !! base_currency with
          | None =>
              raise (HTTPException 400
                       ("No balance found for " +:+ base_currency))
          | Some free =>
              let! available := py_float free in
              let! current_price :=
                match truthy_value (alert_price alert) with
                | Some price => ret price
                | None =>
                    let! _ := emit (FetchTicker exchange (cfg_symbol config)) in
                    let! last :=
                      lift (exchange_fetch_ticker w exchange (cfg_symbol config)) in
                    py_float last
                end in
              let! quantity :=
                py_truediv (available * quantity_percentage / 100)%float
                           current_price in
              ret (Some quantity)
          end
      | None => ret None
      end
  end.

(** [determine_quantity] followed by the [if not quantity] guard. *)
Definition resolve_quantity (w : World) (alert : TradingViewAlertModel)
    (config : AlertConfig) (exchange : Client) : M float :=
  let! quantity := determine_quantity w alert config exchange in
  match truthy_value quantity with
  | Some q => ret q
  | None => raise (HTTPException 400 "Could not determine order quantity")
  end.

(** [alert.price if alert.price else config.get("price")] *)
Definition order_price (alert : TradingViewAlertModel) (config : AlertConfig)
  : option float :=
  if truthy (alert_price alert) then alert_price alert else cfg_price config.

Definition create_order (w : World) (exchange : Client) (request : OrderRequest)
  : M Receipt :=
  let! _ := emit (CreateOrder exchange request) in
  lift (exchange_create_order w exchange request).

(** The block under [# Execute order based on type]; the result is the final
    value of [order_result]. *)
Definition execute_order (w : World) (alert : TradingViewAlertModel)
    (config : AlertConfig) (exchange : Client) (quantity : float)
  : M (option Receipt) :=
  let symbol := cfg_symbol config in
  let order_type := cfg_order_type config in
  let side := order_side (cfg_position_side config) in
  if String.eqb order_type "market" then
    let! order_result :=
      create_order w exchange
        {| req_symbol := symbol; req_type := "market"; req_side := side;
           req_amount := quantity; req_price := None; req_params := ∅ |} in
    ret (Some order_result)
  else if String.eqb order_type "limit" then
    match truthy_value (order_price alert config) with
    | None => raise (HTTPException 400 "Price required for limit orders")
    | Some price =>
        let! order_result :=
          create_order w exchange
            {| req_symbol := symbol; req_type := "limit"; req_side := side;
               req_amount := quantity; req_price := Some price;
               req_params := ∅ |} in
        ret (Some order_result)
    end
  else if String.eqb order_type "stop_loss"
          || String.eqb order_type "take_profit" then
    match truthy_value (order_price alert config) with
    | None =>
        raise (HTTPException 400
                 ("Price required for " +:+ order_type +:+ " orders"))
    | Some price =>
        let! order_result :=
          create_order w exchange
            {| req_symbol := symbol; req_type := "stop"; req_side := side;
               req_amount := quantity; req_price := Some price;
               req_params := {[ "stopPrice" := price ]} |} in
        ret (Some order_result)
    end
  else ret None.

(** [order_result["id"] if order_result and "id" in order_result else None] *)
Definition receipt_id (order_result : option Receipt) : option string :=
  match order_result with
  | Some receipt => receipt !! "id"
  | None => None
  end.

(** The [try] block of [process_tradingview_alert]. *)
Definition alert_pipeline (w : World) (alert : TradingViewAlertModel)
  : M OrderResultModel :=
  let! config := get_alert_config w (alert_user_id alert) (alert_config_name alert) in
  match config with
  | None =>
      raise (HTTPException 404
               ("Configuration '" +:+ alert_config_name alert +:+ "' not found"))
  | Some (StoredConfig config) =>
      let! exchange :=
        get_exchange_client w (alert_user_id alert) (cfg_exchange config) in
      let symbol := cfg_symbol config in
      let side := order_side (cfg_position_side config) in
      let! quantity := resolve_quantity w alert config exchange in
      let! order_result := execute_order w alert config exchange quantity in
      let result :=
        {| res_success := true;
           res_order_id := receipt_id order_result;
           res_message := Some "Order executed successfully";
           res_details := order_result;
           res_timestamp := now w |} in
      let history_data :=
        {| hist_config_name := alert_config_name alert;
           hist_symbol := Some symbol;
           hist_side := Some side;
           hist_quantity := Some quantity;
           hist_price := alert_price alert;
           hist_timestamp := res_timestamp result;
           hist_success := true;
           hist_order_id := res_order_id result;
           hist_details := res_details result;
           hist_message := None |} in
      let! _ := save_alert_history w (alert_user_id alert) history_data in
      ret result
  | Some _ =>
      (* config["exchange"] on a document that is not a configuration *)
      raise (Exception "'exchange'")
  end.

(** The [except Exception as e] block. *)
Definition record_failure (w : World) (alert : TradingViewAlertModel)
    (msg : string) : M OrderResultModel :=
  let error_result :=
    {| res_success := false;
       res_order_id := None;
       res_message := Some ("Error executing order: " +:+ msg);
       res_details := None;
       res_timestamp := now w |} in
  let history_data :=
    {| hist_config_name := alert_config_name alert;
       hist_symbol := None;
       hist_side := None;
       hist_quantity := None;
       hist_price := None;
       hist_timestamp := res_timestamp error_result;
       hist_success := false;
       hist_order_id := None;
       hist_details := None;
       hist_message := res_message error_result |} in
  let! _ := save_alert_history w (alert_user_id alert) history_data in
  ret error_result.

(** [POST /webhook/tradingview].  [except HTTPException: raise] comes first,
    so only the other exceptions reach [record_failure]. *)
Definition process_tradingview_alert (w : World) (alert : TradingViewAlertModel)
  : M OrderResultModel :=
  fun st =>
    match alert_pipeline w alert st with
    | (Ok result, st') => (Ok result, st')
    | (Raise (HTTPException status_code detail), st') =>
        (Raise (HTTPException status_code detail), st')
    | (Raise (Exception msg), st') => record_failure w alert msg st'
    end.

(** * The management side: the rest of database.py and main.py *)

(** ** What else the process asks of the outside *)

Record Services : Type := {
  (** [cipher_suite.encrypt]: the token Fernet hands back *)
  fernet_encrypt : string -> string;
  (** the reply of [KEYS pattern] on a keyspace, in the server's order *)
  redis_keys_reply : string -> gmap string RedisValue -> list string;
  (** [str(e)] of an [HTTPException], as the installed Starlette prints it *)
  http_exception_str : Z -> string -> string
}.

(** [str(e)] *)
Definition exn_str (sv : Services) (e : exn) : string :=
  match e with
  | HTTPException status_code detail => http_exception_str sv status_code detail
  | Exception msg => msg
  end.

(** ** Python lists *)

(** [l[:stop]]: a negative [stop] counts from the end. *)
Definition py_slice_to {A} (l : list A) (stop : Z) : list A :=
  if (0 <=? stop)%Z then take (Z.to_nat stop) l
  else take (length l - Z.to_nat (- stop)) l.

(** [l[-1]] on the pieces of a split, which are never none. *)
Definition py_last (l : list string) : string := List.last l "".

Fixpoint insert_reverse (k : string) (l : list string) : list string :=
  match l with
  | [] => [k]
  | x :: rest =>
      if String.leb x k then k :: l else x :: insert_reverse k rest
  end.

(** [l.sort(reverse=True)] on strings, compared position by position on
    their codes. *)
Definition sort_reverse (l : list string) : list string :=
  foldr insert_reverse [] l.

(** ** database.py, continued *)

Definition redis_keys (w : World) (sv : Services) (pattern : string)
  : M (list string) :=
  fun st =>
    match redis_down w with
    | Some msg => (Raise (Exception msg), st)
    | None => (Ok (redis_keys_reply sv pattern (redis st)), st)
    end.

(** [redis_client.delete(key)]: the number of keys removed. *)
Definition redis_delete (w : World) (key : string) : M Z :=
  fun st =>
    match redis_down w with
    | Some msg => (Raise (Exception msg), st)
    | None =>
        (Ok (match redis st !! key with Some _ => 1%Z | None => 0%Z end),
         {| exchange_clients := exchange_clients st;
            redis := delete key (redis st);
            constructed := constructed st;
            trace := trace st |})
    end.

Definition encrypt_data (sv : Services) (data : string) : M string :=
  ret (fernet_encrypt sv data).

Definition save_exchange_api_key (w : World) (sv : Services)
    (user_id exchange api_key api_secret : string) : M bool :=
  let key := "user:" +:+ user_id +:+ ":exchange:" +:+ exchange in
  let! api_key_enc := encrypt_data sv api_key in
  let! api_secret_enc := encrypt_data sv api_secret in
  redis_set w key (StoredKeys api_key_enc api_secret_enc).

Definition delete_exchange_api_key (w : World) (user_id exchange : string)
  : M bool :=
  let key := "user:" +:+ user_id +:+ ":exchange:" +:+ exchange in
  let! removed := redis_delete w key in
  ret (0 <? removed)%Z.

Definition save_alert_config (w : World) (user_id config_name : string)
    (config_data : AlertConfig) : M bool :=
  let key := "user:" +:+ user_id +:+ ":alert_config:" +:+ config_name in
  redis_set w key (StoredConfig config_data).

(** A document of the listing: [doc] with its ["name"] key set to
    [config_name]. *)
Inductive ListedConfig : Type :=
| Listed (config_name : string) (doc : RedisValue).

(** The [for key in keys] loop of [get_all_alert_configs]. *)
Fixpoint collect_alert_configs (w : World) (user_id : string)
    (keys : list string) (result : list ListedConfig)
  : M (list ListedConfig) :=
  match keys with
  | [] => ret result
  | key :: rest =>
      let config_name := py_last (split ":" key) in
      let! config := get_alert_config w user_id config_name in
      match config with
      | Some doc =>
          collect_alert_configs w user_id rest
            (result ++ [Listed config_name doc])
      | None => collect_alert_configs w user_id rest result
      end
  end.

Definition get_all_alert_configs (w : World) (sv : Services)
    (user_id : string) : M (list ListedConfig) :=
  let pattern := "user:" +:+ user_id +:+ ":alert_config:*" in
  let! keys := redis_keys w sv pattern in
  collect_alert_configs w user_id keys [].

Definition delete_alert_config (w : World) (user_id config_name : string)
  : M bool :=
  let key := "user:" +:+ user_id +:+ ":alert_config:" +:+ config_name in
  let! removed := redis_delete w key in
  ret (0 <? removed)%Z.

(** The [for key in keys] loop of [get_alert_history]. *)
Fixpoint collect_alert_history (w : World) (keys : list string)
    (result : list RedisValue) : M (list RedisValue) :=
  match keys with
  | [] => ret result
  | key :: rest =>
      let! data := redis_get w key in
      match data with
      | Some doc => collect_alert_history w rest (result ++ [doc])
      | None => collect_alert_history w rest result
      end
  end.

Definition get_alert_history (w : World) (sv : Services) (user_id : string)
    (limit : Z) : M (list RedisValue) :=
  let pattern := "alert:" +:+ user_id +:+ ":*" in
  let! keys := redis_keys w sv pattern in
  let keys := sort_reverse keys in
  let keys := py_slice_to keys limit in
  collect_alert_history w keys [].

(** ** models.py, continued *)

Definition ExchangeEnum : list string :=
  ["binance"; "coinbase"; "bybit"; "okex"; "kucoin"; "bitfinex"; "ftx"; "huobi"].

Record ApiKeyModel : Type := {
  key_exchange : string;
  key_api_key : string;
  key_api_secret : string
}.

(** ** main.py: the management endpoints *)

(** [try: body  except Exception as e: raise HTTPException(500, str(e))] *)
Definition or_500 {A} (sv : Services) (body : M A) : M A :=
  fun st =>
    match body st with
    | (Ok a, st') => (Ok a, st')
    | (Raise e, st') => (Raise (HTTPException 500 (exn_str sv e)), st')
    end.

(** The same with [except HTTPException: raise] in front. *)
Definition or_500_unless_http {A} (body : M A) : M A :=
  fun st =>
    match body st with
    | (Raise (Exception msg), st') => (Raise (HTTPException 500 msg), st')
    | other => other
    end.

(** [POST /api/keys]; the result is the pair of ["success"] and
    ["message"]. *)
Definition add_api_key (w : World) (sv : Services) (api_key : ApiKeyModel)
  : M (bool * string) :=
  or_500 sv
    (let user_id := "default" in
     let! result :=
       save_exchange_api_key w sv user_id (key_exchange api_key)
         (key_api_key api_key) (key_api_secret api_key) in
     ret (result, "API keys saved successfully")).

(** [GET /api/keys/{exchange}]; the result is ["has_keys"]. *)
Definition get_api_key_status (w : World) (sv : Services) (exchange : string)
  : M bool :=
  or_500 sv
    (let user_id := "default" in
     let! keys := get_exchange_api_key w user_id exchange in
     ret (match keys with Some _ => true | None => false end)).

(** [DELETE /api/keys/{exchange}]; the result is ["success"]. *)
Definition remove_api_key (w : World) (sv : Services) (exchange : string)
  : M bool :=
  or_500 sv
    (let user_id := "default" in
     delete_exchange_api_key w user_id exchange).

(** [POST /api/config] *)
Definition create_alert_config (w : World) (sv : Services)
    (config : AlertConfig) : M (bool * string) :=
  or_500 sv
    (let user_id := "default" in
     let! result := save_alert_config w user_id (cfg_name config) config in
     ret (result, "Configuration saved successfully")).

(** [GET /api/config/{config_name}] *)
Definition get_config (w : World) (config_name : string) : M RedisValue :=
  or_500_unless_http
    (let user_id := "default" in
     let! config := get_alert_config w user_id config_name in
     match config with
     | None =>
         raise (HTTPException 404
                  ("Configuration " +:+ config_name +:+ " not found"))
     | Some doc => ret doc
     end).

(** [GET /api/config] *)
Definition list_configs (w : World) (sv : Services) : M (list ListedConfig) :=
  or_500 sv
    (let user_id := "default" in
     get_all_alert_configs w sv user_id).

(** [DELETE /api/config/{config_name}] *)
Definition remove_config (w : World) (sv : Services) (config_name : string)
  : M bool :=
  or_500 sv
    (let user_id := "default" in
     delete_alert_config w user_id config_name).

(** [GET /api/history]; FastAPI admits [limit] between 1 and 100. *)
Definition get_user_alert_history (w : World) (sv : Services) (limit : Z)
  : M (list RedisValue) :=
  or_500 sv
    (let user_id := "default" in
     get_alert_history w sv user_id limit).

(** [GET /api/exchanges] *)
Definition list_exchanges : list string := ExchangeEnum.

(** * Vocabulary of the properties *)

(** [client_key = f"{user_id}:{exchange_name}"] *)
Definition client_key (user_id exchange_name : string) : string :=
  user_id +:+ ":" +:+ exchange_name.

(** The requests handed to [create_order], oldest first. *)
Definition orders_placed (t : list Event) : list OrderRequest :=
  omap (fun ev => match ev with
                  | CreateOrder _ request => Some request
                  | _ => None
                  end) t.

(** A step that writes nothing to Redis and places no order. *)
Definition quiet (st st' : State) : Prop :=
  redis st' = redis st /\ orders_placed (trace st') = orders_placed (trace st).

(** The order types of [OrderTypeEnum]. *)
Definition OrderTypeEnum : list string :=
  ["market"; "limit"; "stop_loss"; "take_profit"].

(** [st] with [evs] appended to its trace. *)
Definition logged (evs : list Event) (st : State) : State :=
  {| exchange_clients := exchange_clients st;
     redis := redis st;
     constructed := constructed st;
     trace := trace st ++ evs |}.

(** One [create_order] call and what comes back from it. *)
Definition dispatched (w : World) (exchange : Client) (request : OrderRequest)
    (st : State) : outcome (option Receipt) * State :=
  (match exchange_create_order w exchange request with
   | inl msg => Raise (Exception msg)
   | inr receipt => Ok (Some receipt)
   end,
   logged [CreateOrder exchange request] st).

(** The history documents a keyspace holds. *)
Definition stored_history (r : gmap string RedisValue) : list HistoryData :=
  omap (fun entry => match entry.2 with
                     | StoredHistory record => Some record
                     | _ => None
                     end) (map_to_list r).

(** ** The pipeline, step by step *)

Definition config_key (alert : TradingViewAlertModel) : string :=
  "user:" +:+ alert_user_id alert +:+ ":alert_config:" +:+ alert_config_name alert.

Definition history_key (w : World) (alert : TradingViewAlertModel) : string :=
  "alert:" +:+ alert_user_id alert +:+ ":" +:+ now w.

(** Where a run of the [try] block stops, and in which state. *)
Inductive pipeline_run (w : World) (alert : TradingViewAlertModel) (st : State)
  : outcome OrderResultModel -> State -> Prop :=
| run_redis_down msg :
    redis_down w = Some msg ->
    pipeline_run w alert st (Raise (Exception msg)) st
| run_no_config :
    redis_down w = None ->
    redis st !! config_key alert = None ->
    pipeline_run w alert st
      (Raise (HTTPException 404
                ("Configuration '" +:+ alert_config_name alert +:+ "' not found")))
      st
| run_not_a_config doc :
    redis_down w = None ->
    redis st !! config_key alert = Some doc ->
    (forall config, doc <> StoredConfig config) ->
    pipeline_run w alert st (Raise (Exception "'exchange'")) st
| run_client_failed config e st1 :
    redis_down w = None ->
    redis st !! config_key alert = Some (StoredConfig config) ->
    get_exchange_client w (alert_user_id alert) (cfg_exchange config) st
      = (Raise e, st1) ->
    pipeline_run w alert st (Raise e) st1
| run_quantity_failed config exchange st1 e st2 :
    redis_down w = None ->
    redis st !! config_key alert = Some (StoredConfig config) ->
    get_exchange_client w (alert_user_id alert) (cfg_exchange config) st
      = (Ok exchange, st1) ->
    resolve_quantity w alert config exchange st1 = (Raise e, st2) ->
    pipeline_run w alert st (Raise e) st2
| run_dispatch_failed config exchange st1 quantity st2 e st3 :
    redis_down w = None ->
    redis st !! config_key alert = Some (StoredConfig config) ->
    get_exchange_client w (alert_user_id alert) (cfg_exchange config) st
      = (Ok exchange, st1) ->
    resolve_quantity w alert config exchange st1 = (Ok quantity, st2) ->
    execute_order w alert config exchange quantity st2 = (Raise e, st3) ->
    pipeline_run w alert st (Raise e) st3
| run_recorded config exchange st1 quantity st2 order_result st3 :
    redis_down w = None ->
    redis st !! config_key alert = Some (StoredConfig config) ->
    get_exchange_client w (alert_user_id alert) (cfg_exchange config) st
      = (Ok exchange, st1) ->
    resolve_quantity w alert config exchange st1 = (Ok quantity, st2) ->
    execute_order w alert config exchange quantity st2 = (Ok order_result, st3) ->
    pipeline_run w alert st
      (Ok {| res_success := true;
             res_order_id := receipt_id order_result;
             res_message := Some "Order executed successfully";
             res_details := order_result;
             res_timestamp := now w |})
      {| exchange_clients := exchange_clients st3;
         redis :=
           <[history_key w alert :=
               StoredHistory
                 {| hist_config_name := alert_config_name alert;
                    hist_symbol := Some (cfg_symbol config);
                    hist_side := Some (order_side (cfg_position_side config));
                    hist_quantity := Some quantity;
                    hist_price := alert_price alert;
                    hist_timestamp := now w;
                    hist_success := true;
                    hist_order_id := receipt_id order_result;
                    hist_details := order_result;
                    hist_message := None |}]> (redis st3);
         constructed := constructed st3;
         trace := trace st3 |}.

(** ** Concrete data, after the examples of the specification *)

Module Sample.
Definition config : AlertConfig :=
  {| cfg_name := "c1"; cfg_exchange := "binance"; cfg_symbol := "BTC/USDT";
     cfg_order_type := "market"; cfg_position_side := "long";
     cfg_quantity := Some 0.5%float; cfg_quantity_percentage := None;
     cfg_price := None; cfg_stop_loss := None; cfg_take_profit := None;
     cfg_description := None |}.

Definition with_quantity (q pct : option float) (c : AlertConfig) : AlertConfig :=
  {| cfg_name := cfg_name c; cfg_exchange := cfg_exchange c;
     cfg_symbol := cfg_symbol c; cfg_order_type := cfg_order_type c;
     cfg_position_side := cfg_position_side c;
     cfg_quantity := q; cfg_quantity_percentage := pct;
     cfg_price := cfg_price c; cfg_stop_loss := cfg_stop_loss c;
     cfg_take_profit := cfg_take_profit c;
     cfg_description := cfg_description c |}.

Definition with_order (order_type : string) (price : option float)
    (c : AlertConfig) : AlertConfig :=
  {| cfg_name := cfg_name c; cfg_exchange := cfg_exchange c;
     cfg_symbol := cfg_symbol c; cfg_order_type := order_type;
     cfg_position_side := cfg_position_side c;
     cfg_quantity := cfg_quantity c;
     cfg_quantity_percentage := cfg_quantity_percentage c;
     cfg_price := price; cfg_stop_loss := cfg_stop_loss c;
     cfg_take_profit := cfg_take_profit c;
     cfg_description := cfg_description c |}.

Definition alert_for (config_name : string) (price : option float)
  : TradingViewAlertModel :=
  {| alert_config_name := config_name; alert_user_id := "u1";
     alert_price := price;
     alert_volume := None; alert_time := None; alert_exchange := None;
     alert_symbol := None; alert_message := None |}.

Definition alert (price : option float) : TradingViewAlertModel :=
  alert_for "c1" price.

(** An exchange that answers: 1000 USDT free, last price 50000, and every
    order accepted under the id 42. *)
Definition world (clock : string) : World :=
  {| now := clock; redis_down := None;
     fernet_decrypt := fun data => Some data;
     ccxt_construct := fun _ _ _ => None;
     exchange_fetch_balance := fun _ => inr {[ "USDT" := Some 1000%float ]};
     exchange_fetch_ticker := fun _ _ => inr (Some 50000%float);
     exchange_create_order := fun _ _ => inr {[ "id" := "42" ]} |}.

Definition client : Client :=
  {| client_id := 0; client_exchange := "binance";
     client_apiKey := "key"; client_secret := "secret" |}.

(** A fresh process over a store holding the configuration [c] of user u1
    and, when [keys] is set, u1's binance key pair. *)
Definition state (keys : bool) (c : AlertConfig) : State :=
  {| exchange_clients := ∅;
     redis :=
       if keys
       then <[ "user:u1:exchange:binance" := StoredKeys "key" "secret" ]>
              {[ "user:u1:alert_config:c1" := StoredConfig c ]}
       else {[ "user:u1:alert_config:c1" := StoredConfig c ]};
     constructed := 0;
     trace := [] |}.

(** The same, with an exchange that cannot be reached. *)
Definition world_offline (clock : string) : World :=
  {| now := clock; redis_down := None;
     fernet_decrypt := fun data => Some data;
     ccxt_construct := fun _ _ _ => None;
     exchange_fetch_balance := fun _ => inl "binance GET timed out";
     exchange_fetch_ticker := fun _ _ => inl "binance GET timed out";
     exchange_create_order := fun _ _ => inl "binance POST timed out" |}.

Definition world1 : World := world "2024-01-01T00:00:00.000001".
Definition world2 : World := world "2024-01-01T00:00:00.000002".

(** The store holds c1 and u1's keys; nothing is cached yet. *)
Definition state1 : State := state true config.

(** [state1] after the first call of [get_exchange_client]. *)
Definition state1_cached : State :=
  {| exchange_clients := {[ "u1:binance" := client ]};
     redis := redis state1;
     constructed := 1;
     trace := [VaultRead "u1" "binance"; ClientConstructed client] |}.
End Sample.

(** ** Vocabulary for the management side *)

(** No [":"] in [s]. *)
Fixpoint colon_free (s : string) : bool :=
  match s with
  | EmptyString => true
  | String ch rest => negb (Ascii.eqb ch ":") && colon_free rest
  end.

(** None of the characters that a KEYS pattern reads as a wildcard, a
    class or an escape. *)
Fixpoint glob_free (s : string) : bool :=
  match s with
  | EmptyString => true
  | String ch rest =>
      negb (Ascii.eqb ch "*" || Ascii.eqb ch "?" || Ascii.eqb ch "["
            || Ascii.eqb ch "\")
      && glob_free rest
  end.

(** What Redis answers to [KEYS prefix*] when [prefix] is plain text: the
    keys that start with [prefix], each once, in an order of its own. *)
Definition keys_reply_ok (sv : Services) : Prop :=
  forall prefix store,
    glob_free prefix = true ->
    NoDup (redis_keys_reply sv (prefix +:+ "*") store)
    /\ forall key,
        key ∈ redis_keys_reply sv (prefix +:+ "*") store
        <-> is_Some (store !! key) /\ exists rest, key = prefix +:+ rest.

(** The timestamp a history document carries. *)
Definition doc_timestamp (doc : RedisValue) : string :=
  match doc with
  | StoredHistory record => hist_timestamp record
  | _ => ""
  end.

(** The prefix of the history keys of a user. *)
Definition history_prefix (user_id : string) : string :=
  "alert:" +:+ user_id +:+ ":".

(** Every key of the user's history holds a record keyed by its own
    timestamp, as [save_alert_history] writes them. *)
Definition history_well_keyed (user_id : string)
    (store : gmap string RedisValue) : Prop :=
  forall rest doc,
    store !! (history_prefix user_id +:+ rest) = Some doc ->
    exists record, doc = StoredHistory record /\ hist_timestamp record = rest.

(** The character [ch] does not occur in [s]. *)
Fixpoint lacks (ch : ascii) (s : string) : bool :=
  match s with
  | EmptyString => true
  | String c rest => negb (Ascii.eqb c ch) && lacks ch rest
  end.

(** [a] is not older than [b], by the text of their timestamps. *)
Definition not_older (a b : RedisValue) : Prop :=
  String.leb (doc_timestamp b) (doc_timestamp a) = true.

(** The configuration documents an endpoint lists, name set. *)
Definition listed_config (entry : ListedConfig) : option AlertConfig :=
  match entry with
  | Listed config_name (StoredConfig c) =>
      Some {| cfg_name := config_name; cfg_exchange := cfg_exchange c;
              cfg_symbol := cfg_symbol c; cfg_order_type := cfg_order_type c;
              cfg_position_side := cfg_position_side c;
              cfg_quantity := cfg_quantity c;
              cfg_quantity_percentage := cfg_quantity_percentage c;
              cfg_price := cfg_price c; cfg_stop_loss := cfg_stop_loss c;
              cfg_take_profit := cfg_take_profit c;
              cfg_description := cfg_description c |}
  | Listed _ _ => None
  end.

(** What the listing loop makes of one key of the reply. *)
Definition listed_under (user_id : string) (store : gmap string RedisValue)
    (key : string) : option ListedConfig :=
  Listed (py_last (split ":" key))
    <$> store !! ("user:" +:+ user_id +:+ ":alert_config:"
                  +:+ py_last (split ":" key)).

(** The number of keys of a keyspace that start with [prefix]. *)
Definition stored_under (prefix : string) (store : gmap string RedisValue)
  : nat :=
  size (filter (fun entry => String.prefix prefix entry.1 = true) store).

Module SampleApi.
Fixpoint drop_last (s : string) : string :=
  match s with
  | EmptyString => EmptyString
  | String ch rest =>
      match rest with
      | EmptyString => EmptyString
      | String _ _ => String ch (drop_last rest)
      end
  end.

(** A server whose cipher is the identity, as [Sample.world] decrypts, and
    which answers KEYS by prefix. *)
Definition services : Services :=
  {| fernet_encrypt := fun data => data;
     redis_keys_reply := fun pattern store =>
       filter (fun key => String.prefix (drop_last pattern) key = true)
              (map_to_list store).*1;
     http_exception_str := fun status_code detail => detail |}.

Definition record (timestamp : string) : HistoryData :=
  {| hist_config_name := "c1"; hist_symbol := None; hist_side := None;
     hist_quantity := None; hist_price := None; hist_timestamp := timestamp;
     hist_success := false; hist_order_id := None; hist_details := None;
     hist_message := Some "Error executing order: binance GET timed out" |}.

(** Three records of u1, one per day. *)
Definition history : gmap string RedisValue :=
  {[ "alert:u1:2024-01-01T00:00:00" := StoredHistory (record "2024-01-01T00:00:00");
     "alert:u1:2024-01-03T00:00:00" := StoredHistory (record "2024-01-03T00:00:00");
     "alert:u1:2024-01-02T00:00:00" := StoredHistory (record "2024-01-02T00:00:00") ]}.

Definition named (name : string) (c : AlertConfig) : AlertConfig :=
  {| cfg_name := name; cfg_exchange := cfg_exchange c;
     cfg_symbol := cfg_symbol c; cfg_order_type := cfg_order_type c;
     cfg_position_side := cfg_position_side c;
     cfg_quantity := cfg_quantity c;
     cfg_quantity_percentage := cfg_quantity_percentage c;
     cfg_price := cfg_price c; cfg_stop_loss := cfg_stop_loss c;
     cfg_take_profit := cfg_take_profit c;
     cfg_description := cfg_description c |}.

(** Two configurations of the user "default", one of them under a name
    with a colon. *)
Definition configs : gmap string RedisValue :=
  {[ "user:default:alert_config:c1" := StoredConfig Sample.config;
     "user:default:alert_config:a:b" := StoredConfig (named "a:b" Sample.config) ]}.

Definition with_symbol (symbol : string) (c : AlertConfig) : AlertConfig :=
  {| cfg_name := cfg_name c; cfg_exchange := cfg_exchange c;
     cfg_symbol := symbol; cfg_order_type := cfg_order_type c;
     cfg_position_side := cfg_position_side c;
     cfg_quantity := cfg_quantity c;
     cfg_quantity_percentage := cfg_quantity_percentage c;
     cfg_price := cfg_price c; cfg_stop_loss := cfg_stop_loss c;
     cfg_take_profit := cfg_take_profit c;
     cfg_description := cfg_description c |}.

(** A fresh process over a given keyspace. *)
Definition over (store : gmap string RedisValue) : State :=
  {| exchange_clients := ∅; redis := store; constructed := 0; trace := [] |}.

(** Redis cannot be reached. *)
Definition world_down : World :=
  {| now := "2024-01-01T00:00:00.000001";
     redis_down := Some "Error 111 connecting to redis:6379";
     fernet_decrypt := fun data => Some data;
     ccxt_construct := fun _ _ _ => None;
     exchange_fetch_balance := fun _ => inl "binance GET timed out";
     exchange_fetch_ticker := fun _ _ => inl "binance GET timed out";
     exchange_create_order := fun _ _ => inl "binance POST timed out" |}.

(** ccxt has no class of that name. *)
Definition world_no_class : World :=
  {| now := "2024-01-01T00:00:00.000001";
     redis_down := None;
     fernet_decrypt := fun data => Some data;
     ccxt_construct := fun name _ _ =>
       Some ("module 'ccxt' has no attribute '" +:+ name +:+ "'");
     exchange_fetch_balance := fun _ => inl "binance GET timed out";
     exchange_fetch_ticker := fun _ _ => inl "binance GET timed out";
     exchange_create_order := fun _ _ => inl "binance POST timed out" |}.
(** The process was restarted with another [ENCRYPTION_KEY]: no stored
    token decrypts. *)
Definition world_rekeyed : World :=
  {| now := "2024-01-01T00:00:00.000001";
     redis_down := None;
     fernet_decrypt := fun _ => None;
     ccxt_construct := fun _ _ _ => None;
     exchange_fetch_balance := fun _ => inl "binance GET timed out";
     exchange_fetch_ticker := fun _ _ => inl "binance GET timed out";
     exchange_create_order := fun _ _ => inl "binance POST timed out" |}.
End SampleApi.

(** * Properties *)

(** ** Running the monad *)

Ltac unfold_monad :=
  unfold bind, ret, raise, emit, lift, py_float, py_truediv, py_index,
    redis_get, redis_set, decrypt_data, new_client, cache_client in *.

Ltac run_monad :=
  repeat (progress (unfold_monad; cbn in *; repeat case_match; simplify_eq)).

Lemma bind_inv {A B} (m : M A) (k : A -> M B) st o st' :
  bind m k st = (o, st') ->
  (exists a st1, m st = (Ok a, st1) /\ k a st1 = (o, st'))
  \/ (exists e, m st = (Raise e, st') /\ o = Raise e).
Proof.
  unfold bind. destruct (m st) as [[a | e] st1]; intros H.
  - left. eauto.
  - right. injection H as <- <-. eauto.
Qed.

Lemma bind_Ok {A B} (m : M A) (k : A -> M B) st b st' :
  bind m k st = (Ok b, st') ->
  exists a st1, m st = (Ok a, st1) /\ k a st1 = (Ok b, st').
Proof.
  intros [H | (e & _ & H)]%bind_inv; [exact H | discriminate].
Qed.

(** ** Floats *)

Lemma truthy_value_Some x v :
  truthy_value x = Some v <-> x = Some v /\ float_truthy v = true.
Proof.
  unfold truthy_value. destruct x as [u |].
  - destruct (float_truthy u) eqn:E; split.
    + intros [= <-]. auto.
    + intros [[= <-] _]. reflexivity.
    + discriminate.
    + intros [[= <-] H]. congruence.
  - split; [discriminate | intros [? _]; discriminate].
Qed.

Lemma truthy_value_None x : truthy_value x = None <-> truthy x = false.
Proof. unfold truthy. destruct (truthy_value x); split; congruence. Qed.

Lemma truthy_Some v : truthy (Some v) = float_truthy v.
Proof. unfold truthy, truthy_value. now destruct (float_truthy v). Qed.

(** A float above zero is not a zero, so Python takes it for true. *)
Lemma positive_truthy (x : float) :
  PrimFloat.ltb 0%float x = true -> float_truthy x = true.
Proof.
  unfold float_truthy. rewrite FloatAxioms.ltb_spec, FloatAxioms.eqb_spec.
  change (Prim2SF 0%float) with (S754_zero false).
  destruct (Prim2SF x) as [s | s | | s m e]; try destruct s; cbn;
    try discriminate; reflexivity.
Qed.

(** ** The client cache *)

Section ClientCache.
Variables (user_id exchange_name : string).

Lemma get_exchange_client_hit w st client :
  exchange_clients st !! client_key user_id exchange_name = Some client ->
  get_exchange_client w user_id exchange_name st = (Ok client, st).
Proof.
  intros Hhit. unfold get_exchange_client.
  fold (client_key user_id exchange_name). now rewrite Hhit.
Qed.

Lemma get_exchange_client_miss w st client st' :
  exchange_clients st !! client_key user_id exchange_name = None ->
  get_exchange_client w user_id exchange_name st = (Ok client, st') ->
  exchange_clients st'
  = <[client_key user_id exchange_name := client]> (exchange_clients st)
  /\ client_id client = constructed st
  /\ constructed st' = S (constructed st)
  /\ trace st' = trace st ++ [VaultRead user_id exchange_name;
                              ClientConstructed client]
  /\ redis st' = redis st.
Proof.
  intros Hmiss. unfold get_exchange_client.
  fold (client_key user_id exchange_name).
  rewrite Hmiss. unfold get_exchange_api_key.
  run_monad; intros; simplify_eq; cbn.
  rewrite <- app_assoc. auto.
Qed.

End ClientCache.

(** ** What each step leaves behind *)

Ltac solve_quiet :=
  split; cbn; unfold orders_placed; rewrite ?omap_app; cbn;
  rewrite ?app_nil_r; reflexivity.

Lemma get_exchange_client_quiet w user_id exchange_name st o st' :
  get_exchange_client w user_id exchange_name st = (o, st') -> quiet st st'.
Proof.
  unfold get_exchange_client, get_exchange_api_key.
  run_monad; intros; simplify_eq; solve_quiet.
Qed.

Lemma determine_quantity_quiet w alert config exchange st o st' :
  determine_quantity w alert config exchange st = (o, st') -> quiet st st'.
Proof.
  unfold determine_quantity.
  run_monad; intros; simplify_eq; solve_quiet.
Qed.

Lemma resolve_quantity_quiet w alert config exchange st o st' :
  resolve_quantity w alert config exchange st = (o, st') -> quiet st st'.
Proof.
  unfold resolve_quantity.
  intros [(q & st1 & Hq & Hk) | (e & Hq & _)]%bind_inv;
    apply determine_quantity_quiet in Hq; [| exact Hq].
  destruct (truthy_value q); unfold ret, raise in Hk; simplify_eq; exact Hq.
Qed.

Lemma OrderTypeEnum_eqb order_type :
  order_type ∈ OrderTypeEnum <->
  (String.eqb order_type "market"
   || String.eqb order_type "limit"
   || (String.eqb order_type "stop_loss" || String.eqb order_type "take_profit")
   = true).
Proof.
  unfold OrderTypeEnum.
  rewrite !orb_true_iff, !String.eqb_eq, !elem_of_cons, elem_of_nil. tauto.
Qed.

(** Dispatch never touches Redis; a receipt comes with exactly one request
    sent, and no receipt without an error means none was sent. *)
Lemma execute_order_effect w alert config exchange quantity st o st' :
  execute_order w alert config exchange quantity st = (o, st') ->
  redis st' = redis st
  /\ match o with
     | Ok (Some receipt) =>
         exists request,
           trace st' = trace st ++ [CreateOrder exchange request]
           /\ exchange_create_order w exchange request = inr receipt
           /\ req_amount request = quantity
     | Ok None => st' = st /\ cfg_order_type config ∉ OrderTypeEnum
     | Raise (HTTPException _ _) => st' = st
     | Raise (Exception _) =>
         exists request, trace st' = trace st ++ [CreateOrder exchange request]
     end.
Proof.
  unfold execute_order, create_order.
  run_monad; intros; simplify_eq; cbn; (split; [reflexivity |]); eauto.
  split; [reflexivity |].
  rewrite OrderTypeEnum_eqb. intros Hin.
  repeat match goal with
         | H : _ = false |- _ => rewrite H in Hin; clear H
         end.
  discriminate.
Qed.

Lemma alert_pipeline_run w alert st o st' :
  alert_pipeline w alert st = (o, st') -> pipeline_run w alert st o st'.
Proof.
  unfold alert_pipeline, get_alert_config. fold (config_key alert).
  intros [(doc & st0 & Hget & Hk) | (e & Hget & ->)]%bind_inv;
    unfold redis_get in Hget; destruct (redis_down w) as [msg |] eqn:Hup;
    simplify_eq; [| now apply run_redis_down].
  destruct (redis st0 !! config_key alert) as [[k s | config | h] |] eqn:Hcfg;
    unfold raise in Hk; simplify_eq;
    try (eapply run_not_a_config; [done | done | congruence]);
    [| now apply run_no_config].
  apply bind_inv in Hk
    as [(exchange & st1 & Hclient & Hk) | (e & Hclient & ->)];
    [| eapply run_client_failed; eassumption].
  apply bind_inv in Hk
    as [(quantity & st2 & Hquantity & Hk) | (e & Hquantity & ->)];
    [| eapply run_quantity_failed; eassumption].
  apply bind_inv in Hk
    as [(order_result & st3 & Horder & Hk) | (e & Horder & ->)];
    [| eapply run_dispatch_failed; eassumption].
  unfold save_alert_history, bind, redis_set, ret in Hk. cbn in Hk.
  rewrite Hup in Hk. simplify_eq.
  eapply run_recorded; eassumption.
Qed.

(** A run that raises has written nothing to Redis. *)
Lemma pipeline_run_raise_redis w alert st e st' :
  pipeline_run w alert st (Raise e) st' -> redis st' = redis st.
Proof.
  inversion 1; subst; try reflexivity.
  - eapply get_exchange_client_quiet; eassumption.
  - transitivity (redis st1).
    + eapply resolve_quantity_quiet; eassumption.
    + eapply get_exchange_client_quiet; eassumption.
  - transitivity (redis st2); [| transitivity (redis st1)].
    + eapply execute_order_effect; eassumption.
    + eapply resolve_quantity_quiet; eassumption.
    + eapply get_exchange_client_quiet; eassumption.
Qed.

(** ** Claims about the client cache *)

(** C9.  For every [(user_id, exchange_name)]: a cached client is returned
    as it is, in an unchanged state, so the vault is not read; on a miss a
    successful call reads the vault, constructs one client, stores it
    under the key and returns it; and of two successive successful calls
    the second returns the very client of the first and constructs
    nothing, so at most one client is constructed. *)
Theorem get_exchange_client_get_or_create
    (w1 w2 : World) (user_id exchange_name : string) (st : State) :
  (forall client,
      exchange_clients st !! client_key user_id exchange_name = Some client ->
      get_exchange_client w1 user_id exchange_name st = (Ok client, st))
  /\ (forall client st1,
         exchange_clients st !! client_key user_id exchange_name = None ->
         get_exchange_client w1 user_id exchange_name st = (Ok client, st1) ->
         exchange_clients st1 !! client_key user_id exchange_name = Some client
         /\ trace st1 = trace st ++ [VaultRead user_id exchange_name;
                                     ClientConstructed client]
         /\ constructed st1 = S (constructed st))
  /\ (forall c1 st1 c2 st2,
         get_exchange_client w1 user_id exchange_name st = (Ok c1, st1) ->
         get_exchange_client w2 user_id exchange_name st1 = (Ok c2, st2) ->
         c2 = c1 /\ st2 = st1 /\ constructed st2 <= S (constructed st)).
Proof.
  split; [| split].
  - intros client. apply get_exchange_client_hit.
  - intros client st1 Hmiss Hget.
    destruct (get_exchange_client_miss _ _ _ _ _ _ Hmiss Hget)
      as (Hcache & _ & Hcount & Htrace & _).
    rewrite Hcache, lookup_insert_eq. auto.
  - intros c1 st1 c2 st2 H1 H2.
    destruct (exchange_clients st !! client_key user_id exchange_name)
      as [c |] eqn:Hcache.
    + rewrite (get_exchange_client_hit _ _ w1 _ _ Hcache) in H1.
      injection H1 as <- <-.
      rewrite (get_exchange_client_hit _ _ w2 _ _ Hcache) in H2.
      injection H2 as <- <-. auto.
    + destruct (get_exchange_client_miss _ _ _ _ _ _ Hcache H1)
        as (Hcache1 & _ & Hcount & _).
      assert (Hhit : exchange_clients st1 !! client_key user_id exchange_name
                     = Some c1) by (rewrite Hcache1; apply lookup_insert_eq).
      rewrite (get_exchange_client_hit _ _ w2 _ _ Hhit) in H2.
      injection H2 as <- <-. rewrite Hcount. auto.
Qed.

(** Two calls for u1 on binance from a fresh process: one client, id 0. *)
Lemma get_exchange_client_get_or_create_witness :
  get_exchange_client Sample.world1 "u1" "binance" Sample.state1
    = (Ok Sample.client, Sample.state1_cached)
  /\ get_exchange_client Sample.world2 "u1" "binance" Sample.state1_cached
     = (Ok Sample.client, Sample.state1_cached)
  /\ constructed Sample.state1_cached <= 1.
Proof.
  assert (H1 : get_exchange_client Sample.world1 "u1" "binance" Sample.state1
               = (Ok Sample.client, Sample.state1_cached))
    by (vm_compute; reflexivity).
  assert (H2 : get_exchange_client Sample.world2 "u1" "binance"
                 Sample.state1_cached
               = (Ok Sample.client, Sample.state1_cached))
    by (vm_compute; reflexivity).
  destruct (get_exchange_client_get_or_create
              Sample.world1 Sample.world2 "u1" "binance" Sample.state1)
    as (_ & _ & Htwice).
  destruct (Htwice _ _ _ _ H1 H2) as (_ & _ & Hcount).
  exact (conj H1 (conj H2 Hcount)).
Defined.

(** ** Claims about quantity resolution *)

(** C6.  For every config whose [quantity] is set and positive,
    [resolve_quantity] returns exactly that value and leaves the state as
    it was: no balance call and no ticker call enters the trace. *)
Theorem resolve_quantity_fixed
    (w : World) (alert : TradingViewAlertModel) (config : AlertConfig)
    (exchange : Client) (st : State) (quantity : float) :
  cfg_quantity config = Some quantity ->
  PrimFloat.ltb 0%float quantity = true ->
  resolve_quantity w alert config exchange st = (Ok quantity, st).
Proof.
  intros Hset Hpos. apply positive_truthy in Hpos.
  unfold resolve_quantity, determine_quantity, bind, ret.
  rewrite Hset. cbn. rewrite Hpos. cbn. rewrite Hpos. reflexivity.
Qed.

(** The configuration c1 with quantity 0.5. *)
Lemma resolve_quantity_fixed_witness :
  cfg_quantity Sample.config = Some 0.5%float
  /\ PrimFloat.ltb 0%float 0.5%float = true
  /\ resolve_quantity Sample.world1 (Sample.alert None) Sample.config
       Sample.client Sample.state1
     = (Ok 0.5%float, Sample.state1).
Proof.
  split; [reflexivity | split; [reflexivity |]].
  apply (resolve_quantity_fixed Sample.world1 (Sample.alert None)
           Sample.config Sample.client Sample.state1 0.5%float);
    reflexivity.
Defined.

(** C7, as stated, fails: a negative fixed quantity passes the
    [if not quantity] guard and reaches the dispatch step. *)
Lemma resolve_quantity_yields_negative :
  ~ (forall w alert config exchange st q st',
        resolve_quantity w alert config exchange st = (Ok q, st') ->
        PrimFloat.ltb 0%float q = true).
Proof.
  intros H.
  specialize (H Sample.world1 (Sample.alert None)
                (Sample.with_quantity (Some (-1)%float) None Sample.config)
                Sample.client Sample.state1 (-1)%float Sample.state1 eq_refl).
  vm_compute in H. discriminate.
Qed.

Lemma determine_quantity_not_undetermined w alert config exchange st st' :
  determine_quantity w alert config exchange st
  <> (Raise (HTTPException 400 "Could not determine order quantity"), st').
Proof.
  unfold determine_quantity. run_monad; intros ?; simplify_eq.
Qed.

Lemma determine_quantity_fixed w alert config exchange st q :
  truthy_value (cfg_quantity config) = Some q ->
  determine_quantity w alert config exchange st = (Ok (Some q), st).
Proof. intros H. unfold determine_quantity. now rewrite H. Qed.

Lemma determine_quantity_neither w alert config exchange st :
  truthy_value (cfg_quantity config) = None ->
  truthy_value (cfg_quantity_percentage config) = None ->
  determine_quantity w alert config exchange st = (Ok None, st).
Proof. intros H1 H2. unfold determine_quantity. now rewrite H1, H2. Qed.

Lemma determine_quantity_percentage w alert config exchange st pct oq st' :
  truthy_value (cfg_quantity config) = None ->
  truthy_value (cfg_quantity_percentage config) = Some pct ->
  determine_quantity w alert config exchange st = (Ok oq, st') ->
  exists q, oq = Some q.
Proof.
  intros H1 H2. unfold determine_quantity. rewrite H1, H2.
  run_monad; intros; simplify_eq; eauto.
Qed.

(** C7, amended.  [resolve_quantity] never yields a zero: a returned
    quantity is one Python takes for true (it may be negative).  It raises
    "Could not determine order quantity" exactly when the fixed quantity is
    absent or zero and either the percentage is absent or zero too, or the
    percentage computation came out as zero. *)
Theorem resolve_quantity_nonzero_or_undetermined
    (w : World) (alert : TradingViewAlertModel) (config : AlertConfig)
    (exchange : Client) (st : State) :
  (forall q st',
      resolve_quantity w alert config exchange st = (Ok q, st') ->
      float_truthy q = true)
  /\ (forall st',
         resolve_quantity w alert config exchange st
         = (Raise (HTTPException 400 "Could not determine order quantity"), st')
         <->
         truthy (cfg_quantity config) = false
         /\ (truthy (cfg_quantity_percentage config) = false /\ st' = st
             \/ exists q0,
                 determine_quantity w alert config exchange st
                 = (Ok (Some q0), st')
                 /\ float_truthy q0 = false)).
Proof.
  split.
  - intros q st' (oq & st1 & _ & Hk)%bind_Ok.
    destruct (truthy_value oq) as [q0 |] eqn:Hq; unfold ret, raise in Hk;
      simplify_eq.
    now apply truthy_value_Some in Hq.
  - intros st'. unfold resolve_quantity. split.
    + intros [(oq & st1 & Hd & Hk) | (e & Hd & He)]%bind_inv.
      2: { injection He as <-.
           now apply determine_quantity_not_undetermined in Hd. }
      destruct (truthy_value oq) as [q0 |] eqn:Hq; unfold ret, raise in Hk;
        simplify_eq.
      destruct (truthy_value (cfg_quantity config)) as [q1 |] eqn:Hfixed.
      { rewrite (determine_quantity_fixed _ _ _ _ _ _ Hfixed) in Hd.
        simplify_eq.
        apply truthy_value_Some in Hfixed as [_ Hfixed].
        cbn in Hq. now rewrite Hfixed in Hq. }
      split; [now apply truthy_value_None |].
      destruct (truthy_value (cfg_quantity_percentage config)) as [pct |] eqn:Hpct.
      * right.
        destruct (determine_quantity_percentage _ _ _ _ _ _ _ _ Hfixed Hpct Hd)
          as [q0 ->].
        exists q0. split; [exact Hd |].
        cbn in Hq. now destruct (float_truthy q0).
      * left. rewrite (determine_quantity_neither _ _ _ _ _ Hfixed Hpct) in Hd.
        simplify_eq. split; [now apply truthy_value_None | reflexivity].
    + intros [Hfixed [[Hpct ->] | (q0 & Hd & Hzero)]]; unfold bind.
      * apply truthy_value_None in Hfixed, Hpct.
        now rewrite (determine_quantity_neither _ _ _ _ _ Hfixed Hpct).
      * rewrite Hd. cbn. now rewrite Hzero.
Qed.

(** Neither field set: the guard raises; quantity 0.5: a non-zero result. *)
Lemma resolve_quantity_nonzero_or_undetermined_witness :
  resolve_quantity Sample.world1 (Sample.alert None)
    (Sample.with_quantity None None Sample.config) Sample.client Sample.state1
  = (Raise (HTTPException 400 "Could not determine order quantity"),
     Sample.state1)
  /\ float_truthy 0.5%float = true.
Proof.
  split.
  - apply (resolve_quantity_nonzero_or_undetermined Sample.world1
             (Sample.alert None)
             (Sample.with_quantity None None Sample.config)
             Sample.client Sample.state1).
    split; [reflexivity | left; split; reflexivity].
  - apply (proj1 (resolve_quantity_nonzero_or_undetermined Sample.world1
                    (Sample.alert None) Sample.config Sample.client
                    Sample.state1) 0.5%float Sample.state1).
    reflexivity.
Defined.

(** C4, as stated, fails on its step (b): an alert price that is present
    but not positive is still used as the current price.  With 1000 USDT
    free, 10 percent, ticker at 50000 and an alert price of -1 the quantity
    is -100, not 0.002. *)
Lemma percentage_quantity_negative_alert_price :
  ~ (forall w alert config exchange st pct balance quote available last,
        cfg_quantity config = None ->
        cfg_quantity_percentage config = Some pct ->
        exchange_fetch_balance w exchange = inr balance ->
        split "/" (cfg_symbol config) !! 1 = Some quote ->
        balance !! quote = Some (Some available) ->
        exchange_fetch_ticker w exchange (cfg_symbol config) = inr (Some last) ->
        (forall p, alert_price alert = Some p -> PrimFloat.ltb 0%float p = false) ->
        fst (determine_quantity w alert config exchange st)
        = Ok (Some (available * pct / 100 / last)%float)).
Proof.
  intros H.
  specialize (H Sample.world1 (Sample.alert (Some (-1)%float))
                (Sample.with_quantity None (Some 10%float) Sample.config)
                Sample.client Sample.state1 10%float
                {[ "USDT" := Some 1000%float ]} "USDT" 1000%float 50000%float
                eq_refl eq_refl eq_refl eq_refl eq_refl eq_refl).
  assert (Hneg : forall p, Some (-1)%float = Some p ->
                           PrimFloat.ltb 0%float p = false)
    by (intros p [= <-]; reflexivity).
  specialize (H Hneg).
  apply (f_equal (fun o => match o with
                           | Ok (Some q) => PrimFloat.eqb q (-100)%float
                           | _ => false
                           end)) in H.
  vm_compute in H. discriminate.
Qed.

(** C4, amended.  For every config whose fixed quantity is absent (or
    zero) and whose [quantity_percentage] is set and non-zero:
    (a) [fetch_balance] is called, and when the quote currency, the second
    component of the symbol, is missing from the answer the step raises
    "No balance found for <quote>" (status 400);
    (b) the current price is the alert's price when that is present and
    non-zero, and the ticker's last price, fetched then and only then,
    otherwise;
    (c) the quantity is [(available * percentage / 100) / current_price]. *)
Theorem percentage_quantity
    (w : World) (alert : TradingViewAlertModel) (config : AlertConfig)
    (exchange : Client) (st : State) (pct : float)
    (balance : Balance) (quote : string) :
  truthy (cfg_quantity config) = false ->
  cfg_quantity_percentage config = Some pct ->
  float_truthy pct = true ->
  exchange_fetch_balance w exchange = inr balance ->
  split "/" (cfg_symbol config) !! 1 = Some quote ->
  (balance !! quote = None ->
   determine_quantity w alert config exchange st
   = (Raise (HTTPException 400 ("No balance found for " +:+ quote)),
      logged [FetchBalance exchange] st))
  /\ (forall available price,
         balance !! quote = Some (Some available) ->
         alert_price alert = Some price ->
         float_truthy price = true ->
         determine_quantity w alert config exchange st
         = (Ok (Some (available * pct / 100 / price)%float),
            logged [FetchBalance exchange] st))
  /\ (forall available last,
         balance !! quote = Some (Some available) ->
         truthy (alert_price alert) = false ->
         exchange_fetch_ticker w exchange (cfg_symbol config) = inr (Some last) ->
         float_truthy last = true ->
         determine_quantity w alert config exchange st
         = (Ok (Some (available * pct / 100 / last)%float),
            logged [FetchBalance exchange;
                    FetchTicker exchange (cfg_symbol config)] st)).
Proof.
  intros Hfixed Hset Hpct Hbalance Hquote.
  apply truthy_value_None in Hfixed.
  assert (Hpct' : truthy_value (cfg_quantity_percentage config) = Some pct)
    by (apply truthy_value_Some; auto).
  unfold determine_quantity. rewrite Hfixed, Hpct'.
  unfold bind, emit, lift, py_index, ret, raise. rewrite Hbalance, Hquote.
  split; [| split].
  - intros ->. reflexivity.
  - intros available price -> Hprice Htrue.
    assert (Hp : truthy_value (alert_price alert) = Some price)
      by (apply truthy_value_Some; auto).
    rewrite Hp. cbn. unfold py_truediv, ret.
    unfold float_truthy in Htrue. apply negb_true_iff in Htrue.
    rewrite Htrue. reflexivity.
  - intros available last -> Hnone Hticker Htrue.
    apply truthy_value_None in Hnone. rewrite Hnone. cbn.
    rewrite Hticker. cbn. unfold py_truediv, ret.
    unfold float_truthy in Htrue. apply negb_true_iff in Htrue.
    rewrite Htrue. unfold logged. cbn. now rewrite <- app_assoc.
Qed.

(** The example of the specification: 1000 USDT free, 10 percent, last
    price 50000, no alert price: 0.002 of BTC/USDT after one balance and one
    ticker call. *)
Lemma percentage_quantity_witness :
  determine_quantity Sample.world1 (Sample.alert None)
    (Sample.with_quantity None (Some 10%float) Sample.config)
    Sample.client Sample.state1
  = (Ok (Some 0.002%float),
     logged [FetchBalance Sample.client;
             FetchTicker Sample.client "BTC/USDT"] Sample.state1).
Proof.
  change 0.002%float with (1000 * 10 / 100 / 50000)%float.
  apply (percentage_quantity Sample.world1 (Sample.alert None)
           (Sample.with_quantity None (Some 10%float) Sample.config)
           Sample.client Sample.state1 10%float
           {[ "USDT" := Some 1000%float ]} "USDT");
    reflexivity.
Defined.

(** ** Claims about dispatch *)

Lemma create_order_dispatched w exchange request st :
  (let! order_result := create_order w exchange request in
   ret (Some order_result)) st
  = dispatched w exchange request st.
Proof.
  unfold dispatched, create_order, bind, emit, lift, ret, raise, logged.
  now destruct (exchange_create_order w exchange request).
Qed.

(** C5, as stated, fails: an alert price that is present but zero is
    passed over, and the limit order goes out at the config's price. *)
Lemma order_price_zero_alert_price :
  ~ (forall w alert config exchange quantity st p request,
        cfg_order_type config ∈ ["limit"; "stop_loss"; "take_profit"] ->
        alert_price alert = Some p ->
        trace (snd (execute_order w alert config exchange quantity st))
        = trace st ++ [CreateOrder exchange request] ->
        req_price request = Some p).
Proof.
  intros H.
  assert (Hin : "limit" ∈ ["limit"; "stop_loss"; "take_profit"])
    by apply list_elem_of_here.
  specialize (H Sample.world1 (Sample.alert (Some 0%float))
                (Sample.with_order "limit" (Some 100%float) Sample.config)
                Sample.client 0.5%float Sample.state1 0%float
                {| req_symbol := "BTC/USDT"; req_type := "limit";
                   req_side := "buy"; req_amount := 0.5%float;
                   req_price := Some 100%float; req_params := ∅ |}
                Hin eq_refl eq_refl).
  apply (f_equal (fun o => match o with
                           | Some v => PrimFloat.eqb v 100%float
                           | None => false
                           end)) in H.
  vm_compute in H. discriminate.
Qed.

(** C5, amended.  For [limit], [stop_loss] and [take_profit] the order goes
    out at the alert's price when that is present and non-zero, otherwise at
    the config's price when that is present and non-zero; when neither is,
    dispatch raises "Price required for ... orders" (status 400) and sends
    nothing.  A [market] order is sent without a price whatever the alert
    and the config hold. *)
Theorem order_price_precedence
    (w : World) (alert : TradingViewAlertModel) (config : AlertConfig)
    (exchange : Client) (quantity : float) (st : State) :
  (cfg_order_type config ∈ ["limit"; "stop_loss"; "take_profit"] ->
   (forall p,
       alert_price alert = Some p -> float_truthy p = true ->
       exists request,
         req_price request = Some p
         /\ execute_order w alert config exchange quantity st
            = dispatched w exchange request st)
   /\ (forall p,
          truthy (alert_price alert) = false ->
          cfg_price config = Some p -> float_truthy p = true ->
          exists request,
            req_price request = Some p
            /\ execute_order w alert config exchange quantity st
               = dispatched w exchange request st)
   /\ (truthy (alert_price alert) = false ->
       truthy (cfg_price config) = false ->
       execute_order w alert config exchange quantity st
       = (Raise (HTTPException 400
                   ("Price required for " +:+ cfg_order_type config +:+ " orders")),
          st)))
  /\ (cfg_order_type config = "market" ->
      exists request,
        req_price request = None
        /\ execute_order w alert config exchange quantity st
           = dispatched w exchange request st).
Proof.
  split.
  - intros Hin.
    assert (Hprice : forall p,
               truthy_value (order_price alert config) = Some p ->
               exists request,
                 req_price request = Some p
                 /\ execute_order w alert config exchange quantity st
                    = dispatched w exchange request st).
    { intros p Hp. unfold execute_order.
      rewrite !elem_of_cons, elem_of_nil in Hin.
      destruct Hin as [-> | [-> | [-> | []]]]; cbn; rewrite Hp;
        eexists; (split; [| apply create_order_dispatched]); reflexivity. }
    split; [| split].
    + intros p Hset Htrue. apply Hprice. unfold order_price.
      rewrite Hset, truthy_Some, Htrue. apply truthy_value_Some. auto.
    + intros p Halert Hset Htrue. apply Hprice. unfold order_price.
      rewrite Halert, Hset. apply truthy_value_Some. auto.
    + intros Halert Hcfg.
      assert (Hp : truthy_value (order_price alert config) = None).
      { unfold order_price. rewrite Halert. now apply truthy_value_None. }
      unfold execute_order. rewrite !elem_of_cons, elem_of_nil in Hin.
      destruct Hin as [-> | [-> | [-> | []]]]; cbn; rewrite Hp; reflexivity.
  - intros Hmarket. unfold execute_order. rewrite Hmarket. cbn.
    eexists. split; [| apply create_order_dispatched]. reflexivity.
Qed.

(** A limit order for an alert without a price goes out at the config's
    price of 100. *)
Lemma order_price_precedence_witness :
  exists request,
    req_price request = Some 100%float
    /\ execute_order Sample.world1 (Sample.alert None)
         (Sample.with_order "limit" (Some 100%float) Sample.config)
         Sample.client 0.5%float Sample.state1
       = dispatched Sample.world1 Sample.client request Sample.state1.
Proof.
  assert (Hin : "limit" ∈ ["limit"; "stop_loss"; "take_profit"])
    by apply list_elem_of_here.
  destruct (order_price_precedence Sample.world1 (Sample.alert None)
              (Sample.with_order "limit" (Some 100%float) Sample.config)
              Sample.client 0.5%float Sample.state1) as [Hpriced _].
  destruct (Hpriced Hin) as (_ & Hconfig & _).
  apply (Hconfig 100%float); reflexivity.
Defined.

Lemma execute_order_unsupported w alert config exchange quantity st :
  cfg_order_type config ∉ OrderTypeEnum ->
  execute_order w alert config exchange quantity st = (Ok None, st).
Proof.
  rewrite OrderTypeEnum_eqb. unfold execute_order.
  destruct (String.eqb (cfg_order_type config) "market"); [now intros [] |].
  destruct (String.eqb (cfg_order_type config) "limit"); [now intros [] |].
  destruct (String.eqb (cfg_order_type config) "stop_loss"
            || String.eqb (cfg_order_type config) "take_profit");
    [now intros [] | reflexivity].
Qed.

(** ** The handler around the pipeline *)

Lemma record_failure_run w alert msg st :
  redis_down w = None ->
  record_failure w alert msg st
  = (Ok {| res_success := false;
           res_order_id := None;
           res_message := Some ("Error executing order: " +:+ msg);
           res_details := None;
           res_timestamp := now w |},
     {| exchange_clients := exchange_clients st;
        redis :=
          <[history_key w alert :=
              StoredHistory
                {| hist_config_name := alert_config_name alert;
                   hist_symbol := None;
                   hist_side := None;
                   hist_quantity := None;
                   hist_price := None;
                   hist_timestamp := now w;
                   hist_success := false;
                   hist_order_id := None;
                   hist_details := None;
                   hist_message := Some ("Error executing order: " +:+ msg) |}]>
            (redis st);
        constructed := constructed st;
        trace := trace st |}).
Proof.
  intros Hup.
  unfold record_failure, save_alert_history, bind, redis_set, ret. cbn.
  now rewrite Hup.
Qed.

Lemma record_failure_trace w alert msg st :
  trace (snd (record_failure w alert msg st)) = trace st.
Proof.
  unfold record_failure, save_alert_history, bind, redis_set, ret. cbn.
  now destruct (redis_down w).
Qed.

(** The handler places the orders its [try] block places, and no other. *)
Lemma process_tradingview_alert_trace w alert st :
  trace (snd (process_tradingview_alert w alert st))
  = trace (snd (alert_pipeline w alert st)).
Proof.
  unfold process_tradingview_alert.
  destruct (alert_pipeline w alert st) as [[result | [status detail | msg]] st1];
    cbn; [reflexivity | reflexivity | apply record_failure_trace].
Qed.

(** C3, as stated, fails: for an order type outside [OrderTypeEnum] the
    handler raises nothing and returns a result with [success = true]. *)
Lemma unsupported_order_type_reports_success :
  ~ (forall w alert st config result st',
        redis st !! config_key alert = Some (StoredConfig config) ->
        cfg_order_type config ∉ OrderTypeEnum ->
        process_tradingview_alert w alert st = (Ok result, st') ->
        res_success result = false).
Proof.
  intros H.
  assert (Hnot : "stop_limit" ∉ OrderTypeEnum)
    by (intros Hin; apply OrderTypeEnum_eqb in Hin; discriminate).
  specialize (H Sample.world1 (Sample.alert None)
                (Sample.state true (Sample.with_order "stop_limit" None Sample.config))
                (Sample.with_order "stop_limit" None Sample.config)
                {| res_success := true; res_order_id := None;
                   res_message := Some "Order executed successfully";
                   res_details := None;
                   res_timestamp := now Sample.world1 |}
                (snd (process_tradingview_alert Sample.world1 (Sample.alert None)
                        (Sample.state true
                           (Sample.with_order "stop_limit" None Sample.config))))
                eq_refl Hnot).
  assert (Hrun : res_success
                   {| res_success := true; res_order_id := None;
                      res_message := Some "Order executed successfully";
                      res_details := None;
                      res_timestamp := now Sample.world1 |} = false)
    by (apply H; vm_compute; reflexivity).
  discriminate.
Qed.

(** C3, amended.  For an order type outside [OrderTypeEnum] (a type the
    configuration model rejects when a configuration is created) the
    handler places no exchange order: it never calls [create_order]. *)
Theorem unsupported_order_type_places_no_order
    (w : World) (alert : TradingViewAlertModel) (st : State)
    (config : AlertConfig) :
  redis st !! config_key alert = Some (StoredConfig config) ->
  cfg_order_type config ∉ OrderTypeEnum ->
  orders_placed (trace (snd (process_tradingview_alert w alert st)))
  = orders_placed (trace st).
Proof.
  intros Hconfig Hnot. rewrite process_tradingview_alert_trace.
  destruct (alert_pipeline w alert st) as [o st'] eqn:Hrun. cbn.
  apply alert_pipeline_run in Hrun.
  inversion Hrun; subst; try reflexivity;
    match goal with
    | H : redis st !! config_key alert = Some _ |- _ =>
        rewrite Hconfig in H; injection H as <-
    end.
  - eapply get_exchange_client_quiet; eassumption.
  - etransitivity; [eapply resolve_quantity_quiet; eassumption |].
    eapply get_exchange_client_quiet; eassumption.
  - rewrite (execute_order_unsupported _ _ _ _ _ _ Hnot) in *. discriminate.
  - rewrite (execute_order_unsupported _ _ _ _ _ _ Hnot) in *. simplify_eq.
    cbn. etransitivity; [eapply resolve_quantity_quiet; eassumption |].
    eapply get_exchange_client_quiet; eassumption.
Qed.

(** The order type stop_limit: a run that ends with an empty trace of
    orders. *)
Lemma unsupported_order_type_places_no_order_witness :
  orders_placed
    (trace (snd (process_tradingview_alert Sample.world1 (Sample.alert None)
                   (Sample.state true
                      (Sample.with_order "stop_limit" None Sample.config)))))
  = [].
Proof.
  apply (unsupported_order_type_places_no_order Sample.world1 (Sample.alert None)
           (Sample.state true (Sample.with_order "stop_limit" None Sample.config))
           (Sample.with_order "stop_limit" None Sample.config)).
  - reflexivity.
  - intros Hin. apply OrderTypeEnum_eqb in Hin. discriminate.
Defined.

(** The example of the specification: c1 is a market order, long, quantity
    0.01; the alert names c1 for u1.  One market buy of 0.01 goes out and
    the record of the run holds that quantity. *)
Example market_order_example :
  let st' := snd (process_tradingview_alert Sample.world1 (Sample.alert None)
                    (Sample.state true
                       (Sample.with_quantity (Some 0.01%float) None
                          Sample.config))) in
  orders_placed (trace st')
  = [{| req_symbol := "BTC/USDT"; req_type := "market"; req_side := "buy";
        req_amount := 0.01%float; req_price := None; req_params := ∅ |}]
  /\ (fun doc => match doc with
                 | Some (StoredHistory record) =>
                     (hist_success record, hist_quantity record)
                 | _ => (false, None)
                 end)
       (redis st' !! "alert:u1:2024-01-01T00:00:00.000001")
     = (true, Some 0.01%float).
Proof. split; vm_compute; reflexivity. Qed.

(** ** Claims about failure handling *)

(** C1, as stated, fails: with the configuration stored but no key pair in
    the vault, client acquisition raises an [HTTPException], which the
    handler lets through. *)
Lemma client_acquisition_failure_is_raised :
  ~ (forall w alert st config e st1,
        redis_down w = None ->
        redis st !! config_key alert = Some (StoredConfig config) ->
        alert_pipeline w alert st = (Raise e, st1) ->
        exists result st',
          process_tradingview_alert w alert st = (Ok result, st')
          /\ res_success result = false).
Proof.
  intros H.
  destruct (H Sample.world1 (Sample.alert None)
              (Sample.state false Sample.config) Sample.config
              (HTTPException 404 "API keys not found for exchange binance")
              (logged [VaultRead "u1" "binance"]
                 (Sample.state false Sample.config))
              eq_refl eq_refl eq_refl)
    as (result & st' & Hrun & _).
  vm_compute in Hrun. discriminate.
Qed.

(** C1, amended.  When the pipeline fails with an exception that is not an
    [HTTPException] (a vault, exchange or network error, a division by
    zero, ...) and Redis takes the write, the handler stores a failure
    record for the user and returns a result with [success = false] and the
    message "Error executing order: ...".  When it fails with an
    [HTTPException] (no key pair, client construction, no balance for the
    quote currency, undetermined quantity, missing price) the handler
    raises that exception to the caller and Redis is left as it was. *)
Theorem pipeline_failure_recorded_unless_http
    (w : World) (alert : TradingViewAlertModel) (st : State)
    (e : exn) (st1 : State) :
  alert_pipeline w alert st = (Raise e, st1) ->
  match e with
  | Exception msg =>
      redis_down w = None ->
      exists result st' record,
        process_tradingview_alert w alert st = (Ok result, st')
        /\ res_success result = false
        /\ res_message result = Some ("Error executing order: " +:+ msg)
        /\ redis st' !! history_key w alert = Some (StoredHistory record)
        /\ hist_config_name record = alert_config_name alert
        /\ hist_success record = false
        /\ hist_message record = res_message result
  | HTTPException status_code detail =>
      process_tradingview_alert w alert st
      = (Raise (HTTPException status_code detail), st1)
      /\ redis st1 = redis st
  end.
Proof.
  intros Hrun. unfold process_tradingview_alert. rewrite Hrun.
  destruct e as [status_code detail | msg].
  - split; [reflexivity |].
    apply alert_pipeline_run in Hrun.
    now apply pipeline_run_raise_redis in Hrun.
  - intros Hup. rewrite (record_failure_run _ _ _ _ Hup).
    do 3 eexists. split; [reflexivity |]. cbn.
    rewrite lookup_insert_eq. auto 10.
Qed.

(** The exchange times out on [fetch_balance]: a failure result and a
    failure record under the key of that instant. *)
Lemma pipeline_failure_recorded_unless_http_witness :
  exists result st' record,
    process_tradingview_alert (Sample.world_offline "2024-01-01T00:00:00.000001")
      (Sample.alert None)
      (Sample.state true
         (Sample.with_quantity None (Some 10%float) Sample.config))
    = (Ok result, st')
    /\ res_success result = false
    /\ res_message result
       = Some "Error executing order: binance GET timed out"
    /\ redis st' !! "alert:u1:2024-01-01T00:00:00.000001"
       = Some (StoredHistory record)
    /\ hist_config_name record = "c1"
    /\ hist_success record = false
    /\ hist_message record = res_message result.
Proof.
  refine (pipeline_failure_recorded_unless_http
            (Sample.world_offline "2024-01-01T00:00:00.000001")
            (Sample.alert None)
            (Sample.state true
               (Sample.with_quantity None (Some 10%float) Sample.config))
            (Exception "binance GET timed out")
            (snd (alert_pipeline
                    (Sample.world_offline "2024-01-01T00:00:00.000001")
                    (Sample.alert None)
                    (Sample.state true
                       (Sample.with_quantity None (Some 10%float)
                          Sample.config))))
            _ _).
  - vm_compute. reflexivity.
  - reflexivity.
Defined.

(** C2, as stated, fails: for an unknown [config_name] the handler returns
    no result and writes no record. *)
Lemma unknown_config_returns_no_result :
  ~ (forall w alert st,
        redis_down w = None ->
        redis st !! config_key alert = None ->
        exists result st',
          process_tradingview_alert w alert st = (Ok result, st')
          /\ res_success result = false
          /\ is_Some (redis st' !! history_key w alert)).
Proof.
  intros H.
  destruct (H Sample.world1 (Sample.alert_for "nope" None) Sample.state1
              eq_refl eq_refl)
    as (result & st' & Hrun & _).
  vm_compute in Hrun. discriminate.
Qed.

(** C2, amended.  For every alert whose [config_name] has no stored
    configuration for [alert.user_id], the handler raises
    [HTTPException(404)] with the detail
    "Configuration '<config_name>' not found" and leaves the state as it
    was: no history record is written. *)
Theorem unknown_config_is_raised
    (w : World) (alert : TradingViewAlertModel) (st : State) :
  redis_down w = None ->
  redis st !! config_key alert = None ->
  process_tradingview_alert w alert st
  = (Raise (HTTPException 404
              ("Configuration '" +:+ alert_config_name alert +:+ "' not found")),
     st).
Proof.
  intros Hup Hnone.
  unfold process_tradingview_alert, alert_pipeline, get_alert_config,
    bind, redis_get.
  fold (config_key alert). now rewrite Hup, Hnone.
Qed.

(** The alert names the configuration nope, which u1 never stored. *)
Lemma unknown_config_is_raised_witness :
  process_tradingview_alert Sample.world1 (Sample.alert_for "nope" None)
    Sample.state1
  = (Raise (HTTPException 404 "Configuration 'nope' not found"), Sample.state1).
Proof.
  apply (unknown_config_is_raised Sample.world1 (Sample.alert_for "nope" None)
           Sample.state1); reflexivity.
Defined.

(** ** Claims about the history *)

(** A result with [success = true] comes from a run of the [try] block that
    went through to the history write. *)
Lemma process_success_run w alert st result st' :
  process_tradingview_alert w alert st = (Ok result, st') ->
  res_success result = true ->
  pipeline_run w alert st (Ok result) st'.
Proof.
  unfold process_tradingview_alert.
  destruct (alert_pipeline w alert st) as [[r | [status detail | msg]] st1]
    eqn:Hrun; intros Hprocess Hsuccess.
  - injection Hprocess as <- <-. now apply alert_pipeline_run.
  - discriminate.
  - unfold record_failure, save_alert_history, bind, redis_set, ret in Hprocess.
    cbn in Hprocess. destruct (redis_down w); simplify_eq.
Qed.

(** What such a run leaves behind: one record under [history_key], and, for
    an order type of [OrderTypeEnum], one more order. *)
Lemma pipeline_run_recorded w alert st result st' config :
  pipeline_run w alert st (Ok result) st' ->
  redis st !! config_key alert = Some (StoredConfig config) ->
  (exists record,
      redis st' = <[history_key w alert := StoredHistory record]> (redis st)
      /\ hist_timestamp record = now w
      /\ hist_price record = alert_price alert
      /\ hist_success record = true)
  /\ (cfg_order_type config ∈ OrderTypeEnum ->
      exists request,
        orders_placed (trace st') = orders_placed (trace st) ++ [request]).
Proof.
  intros Hrun Hconfig. inversion Hrun; subst.
  match goal with
  | H : redis st !! config_key alert = Some _ |- _ =>
      rewrite Hconfig in H; injection H as <-
  end.
  repeat match goal with
         | H : get_exchange_client _ _ _ _ = _ |- _ =>
             apply get_exchange_client_quiet in H as [Hredis1 Horders1]
         | H : resolve_quantity _ _ _ _ _ = _ |- _ =>
             apply resolve_quantity_quiet in H as [Hredis2 Horders2]
         | H : execute_order _ _ _ _ _ _ = _ |- _ =>
             apply execute_order_effect in H as [Hredis3 Hsent]
         end.
  split.
  - eexists. cbn. rewrite Hredis3, Hredis2, Hredis1. auto.
  - intros Hin. cbn. destruct order_result as [receipt |].
    + destruct Hsent as (request & -> & _). exists request.
      unfold orders_placed at 1. rewrite omap_app. cbn.
      fold (orders_placed (trace st2)). now rewrite Horders2, Horders1.
    + now destruct Hsent as [_ Hnot].
Qed.

(** C10.  In the history record of a successful run the [price] field is
    the alert's price, [None] when the alert carries none, whatever price
    the order went out at. *)
Theorem success_record_keeps_alert_price
    (w : World) (alert : TradingViewAlertModel) (st : State)
    (result : OrderResultModel) (st' : State) :
  process_tradingview_alert w alert st = (Ok result, st') ->
  res_success result = true ->
  exists record,
    redis st' !! history_key w alert = Some (StoredHistory record)
    /\ hist_success record = true
    /\ hist_price record = alert_price alert.
Proof.
  intros Hprocess Hsuccess.
  pose proof (process_success_run _ _ _ _ _ Hprocess Hsuccess) as Hrun.
  inversion Hrun; subst. cbn. rewrite lookup_insert_eq.
  eexists. split; [reflexivity |]. cbn. auto.
Qed.

(** A limit order for an alert without a price: the order goes out at the
    config's 100 and the record holds no price. *)
Lemma success_record_keeps_alert_price_witness :
  orders_placed
    (trace (snd (process_tradingview_alert Sample.world1 (Sample.alert None)
                   (Sample.state true
                      (Sample.with_order "limit" (Some 100%float) Sample.config)))))
  = [{| req_symbol := "BTC/USDT"; req_type := "limit"; req_side := "buy";
        req_amount := 0.5%float; req_price := Some 100%float;
        req_params := ∅ |}]
  /\ exists record,
      redis (snd (process_tradingview_alert Sample.world1 (Sample.alert None)
                    (Sample.state true
                       (Sample.with_order "limit" (Some 100%float)
                          Sample.config))))
        !! "alert:u1:2024-01-01T00:00:00.000001"
      = Some (StoredHistory record)
      /\ hist_success record = true
      /\ hist_price record = None.
Proof.
  split; [vm_compute; reflexivity |].
  apply (success_record_keeps_alert_price Sample.world1 (Sample.alert None)
           (Sample.state true
              (Sample.with_order "limit" (Some 100%float) Sample.config))
           {| res_success := true; res_order_id := Some "42";
              res_message := Some "Order executed successfully";
              res_details := Some {[ "id" := "42" ]};
              res_timestamp := "2024-01-01T00:00:00.000001" |}).
  - vm_compute. reflexivity.
  - reflexivity.
Defined.

Lemma history_key_config_key w alert alert' :
  history_key w alert <> config_key alert'.
Proof. unfold history_key, config_key. cbn. discriminate. Qed.

Lemma history_key_inj w1 w2 alert :
  history_key w1 alert = history_key w2 alert -> now w1 = now w2.
Proof.
  unfold history_key. intros H.
  repeat apply (inj (String.app _)) in H. exact H.
Qed.

(** C8, as stated, fails: when both invocations read the same instant from
    the clock, the second record replaces the first.  Two orders were
    placed, one record is held. *)
Lemma same_instant_one_record :
  ~ (forall w1 w2 alert st r1 st1 r2 st2,
        process_tradingview_alert w1 alert st = (Ok r1, st1) ->
        res_success r1 = true ->
        process_tradingview_alert w2 alert st1 = (Ok r2, st2) ->
        res_success r2 = true ->
        length (orders_placed (trace st2))
        = length (orders_placed (trace st)) + 2
        /\ length (stored_history (redis st2))
           = length (stored_history (redis st)) + 2).
Proof.
  intros H.
  pose (result := {| res_success := true; res_order_id := Some "42";
                     res_message := Some "Order executed successfully";
                     res_details := Some ({[ "id" := "42" ]} : Receipt);
                     res_timestamp := "2024-01-01T00:00:00.000001" |}).
  pose (st1 := snd (process_tradingview_alert Sample.world1 (Sample.alert None)
                      Sample.state1)).
  pose (st2 := snd (process_tradingview_alert Sample.world1 (Sample.alert None)
                      st1)).
  assert (H1 : process_tradingview_alert Sample.world1 (Sample.alert None)
                 Sample.state1 = (Ok result, st1))
    by (vm_compute; reflexivity).
  assert (H2 : process_tradingview_alert Sample.world1 (Sample.alert None) st1
               = (Ok result, st2))
    by (vm_compute; reflexivity).
  destruct (H _ _ _ _ _ _ _ _ H1 eq_refl H2 eq_refl) as [_ Hrecords].
  vm_compute in Hrecords. discriminate.
Qed.

(** C8, amended.  Two identical alerts processed back-to-back, each ending
    in a result with [success = true] for a configuration whose order type
    is in [OrderTypeEnum], place two orders: nothing is suppressed.  When
    the two invocations read distinct instants from the clock, the store
    afterwards holds both records, each under its own key. *)
Theorem two_alerts_two_orders_two_records
    (w1 w2 : World) (alert : TradingViewAlertModel) (config : AlertConfig)
    (st st1 st2 : State) (r1 r2 : OrderResultModel) :
  redis st !! config_key alert = Some (StoredConfig config) ->
  cfg_order_type config ∈ OrderTypeEnum ->
  process_tradingview_alert w1 alert st = (Ok r1, st1) ->
  res_success r1 = true ->
  process_tradingview_alert w2 alert st1 = (Ok r2, st2) ->
  res_success r2 = true ->
  (exists o1 o2,
      orders_placed (trace st2) = orders_placed (trace st) ++ [o1; o2])
  /\ (now w1 <> now w2 ->
      exists h1 h2,
        history_key w1 alert <> history_key w2 alert
        /\ redis st1 !! history_key w1 alert = Some (StoredHistory h1)
        /\ redis st2 !! history_key w1 alert = Some (StoredHistory h1)
        /\ redis st2 !! history_key w2 alert = Some (StoredHistory h2)
        /\ hist_timestamp h1 = now w1
        /\ hist_timestamp h2 = now w2).
Proof.
  intros Hconfig Hin Hp1 Hs1 Hp2 Hs2.
  apply process_success_run in Hp1, Hp2; [| assumption ..].
  destruct (pipeline_run_recorded _ _ _ _ _ _ Hp1 Hconfig)
    as [(h1 & Hredis1 & Ht1 & _) Horders1].
  assert (Hconfig1 : redis st1 !! config_key alert = Some (StoredConfig config)).
  { rewrite Hredis1, lookup_insert_ne; [exact Hconfig |].
    apply history_key_config_key. }
  destruct (pipeline_run_recorded _ _ _ _ _ _ Hp2 Hconfig1)
    as [(h2 & Hredis2 & Ht2 & _) Horders2].
  destruct (Horders1 Hin) as [o1 Ho1]. destruct (Horders2 Hin) as [o2 Ho2].
  split.
  - exists o1, o2. rewrite Ho2, Ho1, <- app_assoc. reflexivity.
  - intros Hclock. exists h1, h2.
    assert (Hkeys : history_key w1 alert <> history_key w2 alert)
      by (intros Heq; apply Hclock; eapply history_key_inj; exact Heq).
    split; [exact Hkeys |].
    rewrite Hredis2, Hredis1.
    rewrite lookup_insert_eq, lookup_insert_ne by congruence.
    rewrite !lookup_insert_eq. auto.
Qed.

(** The alert of the specification's example at two instants one
    microsecond apart: both records are held. *)
Lemma two_alerts_two_orders_two_records_witness :
  exists h1 h2,
    redis (snd (process_tradingview_alert Sample.world2 (Sample.alert None)
                  (snd (process_tradingview_alert Sample.world1
                          (Sample.alert None) Sample.state1))))
      !! "alert:u1:2024-01-01T00:00:00.000001" = Some (StoredHistory h1)
    /\ redis (snd (process_tradingview_alert Sample.world2 (Sample.alert None)
                     (snd (process_tradingview_alert Sample.world1
                             (Sample.alert None) Sample.state1))))
         !! "alert:u1:2024-01-01T00:00:00.000002" = Some (StoredHistory h2)
    /\ hist_timestamp h1 = "2024-01-01T00:00:00.000001"
    /\ hist_timestamp h2 = "2024-01-01T00:00:00.000002".
Proof.
  pose (r1 := {| res_success := true; res_order_id := Some "42";
                 res_message := Some "Order executed successfully";
                 res_details := Some ({[ "id" := "42" ]} : Receipt);
                 res_timestamp := "2024-01-01T00:00:00.000001" |}).
  pose (r2 := {| res_success := true; res_order_id := Some "42";
                 res_message := Some "Order executed successfully";
                 res_details := Some ({[ "id" := "42" ]} : Receipt);
                 res_timestamp := "2024-01-01T00:00:00.000002" |}).
  assert (Hin : "market" ∈ OrderTypeEnum) by apply list_elem_of_here.
  assert (H1 : process_tradingview_alert Sample.world1 (Sample.alert None)
                 Sample.state1
               = (Ok r1, snd (process_tradingview_alert Sample.world1
                                (Sample.alert None) Sample.state1)))
    by (vm_compute; reflexivity).
  assert (H2 : process_tradingview_alert Sample.world2 (Sample.alert None)
                 (snd (process_tradingview_alert Sample.world1
                         (Sample.alert None) Sample.state1))
               = (Ok r2,
                  snd (process_tradingview_alert Sample.world2
                         (Sample.alert None)
                         (snd (process_tradingview_alert Sample.world1
                                 (Sample.alert None) Sample.state1)))))
    by (vm_compute; reflexivity).
  destruct (two_alerts_two_orders_two_records
              Sample.world1 Sample.world2 (Sample.alert None) Sample.config
              Sample.state1 _ _ _ _ eq_refl Hin H1 eq_refl H2 eq_refl)
    as [_ Hrecords].
  assert (Hclock : now Sample.world1 <> now Sample.world2) by discriminate.
  destruct (Hrecords Hclock) as (h1 & h2 & _ & _ & Hk1 & Hk2 & Ht1 & Ht2).
  exists h1, h2. exact (conj Hk1 (conj Hk2 (conj Ht1 Ht2))).
Defined.

(** * Properties of the management side *)

(** ** The vault *)

(** X1.  What [save_exchange_api_key] stores, [get_exchange_api_key] reads
    back: with Redis up and a cipher that decrypts its own tokens, the pair
    returned is the pair saved. *)
Theorem vault_round_trip
    (w : World) (sv : Services) (user_id exchange api_key api_secret : string)
    (st : State) :
  redis_down w = None ->
  fernet_decrypt w (fernet_encrypt sv api_key) = Some api_key ->
  fernet_decrypt w (fernet_encrypt sv api_secret) = Some api_secret ->
  exists st1 st2,
    save_exchange_api_key w sv user_id exchange api_key api_secret st
    = (Ok true, st1)
    /\ get_exchange_api_key w user_id exchange st1
       = (Ok (Some (api_key, api_secret)), st2)
    /\ redis st2 = redis st1.
Proof.
  intros Hup Hkey Hsecret.
  unfold save_exchange_api_key, get_exchange_api_key, encrypt_data,
    decrypt_data, bind, ret, raise, emit, redis_set, redis_get.
  rewrite !Hup. cbn. do 2 eexists. split; [reflexivity |].
  cbn. rewrite lookup_insert_eq, Hkey, Hsecret. split; reflexivity.
Qed.

Lemma vault_round_trip_witness :
  exists st1 st2,
    save_exchange_api_key Sample.world1 SampleApi.services
      "default" "binance" "key" "secret" (SampleApi.over ∅)
    = (Ok true, st1)
    /\ get_exchange_api_key Sample.world1 "default" "binance" st1
       = (Ok (Some ("key", "secret")), st2)
    /\ redis st2 = redis st1.
Proof.
  apply (vault_round_trip Sample.world1 SampleApi.services
           "default" "binance" "key" "secret" (SampleApi.over ∅));
    reflexivity.
Defined.

(** X2.  [delete_exchange_api_key] answers whether the key held anything,
    and from then on [get_exchange_api_key] finds no key pair. *)
Theorem delete_exchange_api_key_forgets
    (w : World) (user_id exchange : string) (st : State) :
  redis_down w = None ->
  exists st1,
    delete_exchange_api_key w user_id exchange st
    = (Ok (bool_decide
             (is_Some (redis st !! ("user:" +:+ user_id +:+ ":exchange:"
                                    +:+ exchange)))), st1)
    /\ get_exchange_api_key w user_id exchange st1
       = (Ok None, logged [VaultRead user_id exchange] st1)
    /\ exchange_clients st1 = exchange_clients st.
Proof.
  intros Hup.
  unfold delete_exchange_api_key, get_exchange_api_key, bind, ret, emit,
    redis_delete, redis_get.
  rewrite !Hup. cbn. eexists. split; [| split].
  - destruct (redis st !! _) as [doc |]; reflexivity.
  - cbn. now rewrite lookup_delete_eq.
  - reflexivity.
Qed.

Lemma delete_exchange_api_key_forgets_witness :
  exists st1,
    delete_exchange_api_key Sample.world1 "u1" "binance" Sample.state1
    = (Ok true, st1)
    /\ get_exchange_api_key Sample.world1 "u1" "binance" st1
       = (Ok None, logged [VaultRead "u1" "binance"] st1)
    /\ exchange_clients st1 = exchange_clients Sample.state1.
Proof.
  apply (delete_exchange_api_key_forgets Sample.world1 "u1" "binance"
           Sample.state1).
  reflexivity.
Defined.

(** ** The client cache, on failure *)

(** X3.  On a cache miss with Redis up, [get_exchange_client] raises 404
    "API keys not found for exchange ..." when the vault holds nothing for
    the pair, and 500 "Error creating exchange client: ..." when the key
    pair is there but the ccxt constructor raises. *)
Theorem get_exchange_client_errors
    (w : World) (user_id exchange_name : string) (st : State) :
  exchange_clients st !! client_key user_id exchange_name = None ->
  redis_down w = None ->
  (redis st !! ("user:" +:+ user_id +:+ ":exchange:" +:+ exchange_name) = None ->
   get_exchange_client w user_id exchange_name st
   = (Raise (HTTPException 404
               ("API keys not found for exchange " +:+ exchange_name)),
      logged [VaultRead user_id exchange_name] st))
  /\ (forall api_key_enc api_secret_enc api_key api_secret msg,
         redis st !! ("user:" +:+ user_id +:+ ":exchange:" +:+ exchange_name)
         = Some (StoredKeys api_key_enc api_secret_enc) ->
         fernet_decrypt w api_key_enc = Some api_key ->
         fernet_decrypt w api_secret_enc = Some api_secret ->
         ccxt_construct w exchange_name api_key api_secret = Some msg ->
         get_exchange_client w user_id exchange_name st
         = (Raise (HTTPException 500
                     ("Error creating exchange client: " +:+ msg)),
            logged [VaultRead user_id exchange_name] st)).
Proof.
  intros Hmiss Hup. unfold get_exchange_client.
  fold (client_key user_id exchange_name). rewrite Hmiss.
  unfold get_exchange_api_key, decrypt_data, bind, ret, raise, emit, redis_get.
  rewrite Hup. cbn. split.
  - intros ->. reflexivity.
  - intros k s api_key api_secret msg -> Hk Hs Hc.
    rewrite Hk, Hs, Hc. reflexivity.
Qed.

Lemma get_exchange_client_errors_witness :
  get_exchange_client Sample.world1 "u1" "binance"
    (Sample.state false Sample.config)
  = (Raise (HTTPException 404 "API keys not found for exchange binance"),
     logged [VaultRead "u1" "binance"] (Sample.state false Sample.config))
  /\ get_exchange_client SampleApi.world_no_class "u1" "binanse"
       (SampleApi.over {[ "user:u1:exchange:binanse" := StoredKeys "key" "secret" ]})
     = (Raise (HTTPException 500
                 "Error creating exchange client: module 'ccxt' has no attribute 'binanse'"),
        logged [VaultRead "u1" "binanse"]
          (SampleApi.over
             {[ "user:u1:exchange:binanse" := StoredKeys "key" "secret" ]})).
Proof.
  split.
  - apply (get_exchange_client_errors Sample.world1 "u1" "binance"
             (Sample.state false Sample.config)); reflexivity.
  - apply (proj2 (get_exchange_client_errors SampleApi.world_no_class
                    "u1" "binanse"
                    (SampleApi.over
                       {[ "user:u1:exchange:binanse" := StoredKeys "key" "secret" ]})
                    eq_refl eq_refl)
             "key" "secret" "key" "secret"
             "module 'ccxt' has no attribute 'binanse'");
      reflexivity.
Defined.

Lemma get_exchange_client_raise w user_id exchange_name st e st' :
  get_exchange_client w user_id exchange_name st = (Raise e, st') ->
  exchange_clients st' = exchange_clients st
  /\ constructed st' = constructed st
  /\ redis st' = redis st.
Proof.
  unfold get_exchange_client, get_exchange_api_key.
  run_monad; intros; simplify_eq; auto.
Qed.

(** X4.  A call of [get_exchange_client] that raises caches nothing and
    constructs nothing, and leaves Redis as it was: the next call starts
    over. *)
Theorem get_exchange_client_failure_caches_nothing
    (w : World) (user_id exchange_name : string) (st : State)
    (e : exn) (st' : State) :
  get_exchange_client w user_id exchange_name st = (Raise e, st') ->
  exchange_clients st' = exchange_clients st
  /\ constructed st' = constructed st
  /\ redis st' = redis st.
Proof. apply get_exchange_client_raise. Qed.

Lemma get_exchange_client_failure_caches_nothing_witness :
  get_exchange_client Sample.world1 "u1" "binance"
    (Sample.state false Sample.config)
  = (Raise (HTTPException 404 "API keys not found for exchange binance"),
     logged [VaultRead "u1" "binance"] (Sample.state false Sample.config))
  /\ exchange_clients
       (logged [VaultRead "u1" "binance"] (Sample.state false Sample.config))
     = ∅.
Proof.
  assert (Hrun : get_exchange_client Sample.world1 "u1" "binance"
                   (Sample.state false Sample.config)
                 = (Raise (HTTPException 404
                             "API keys not found for exchange binance"),
                    logged [VaultRead "u1" "binance"]
                      (Sample.state false Sample.config)))
    by reflexivity.
  split; [exact Hrun |].
  exact (proj1 (get_exchange_client_failure_caches_nothing _ _ _ _ _ _ Hrun)).
Defined.

(** X5.  The cache is never invalidated: once a client is cached for a
    pair, deleting the pair's keys or saving new ones leaves
    [get_exchange_client] returning that client, built from the old
    credentials, and the vault is not read. *)
Theorem cached_client_outlives_its_keys
    (w w' : World) (sv : Services) (user_id exchange_name : string)
    (client : Client) (st : State) :
  exchange_clients st !! client_key user_id exchange_name = Some client ->
  (forall o st1,
      delete_exchange_api_key w user_id exchange_name st = (o, st1) ->
      get_exchange_client w' user_id exchange_name st1 = (Ok client, st1))
  /\ (forall api_key api_secret o st1,
         save_exchange_api_key w sv user_id exchange_name api_key api_secret st
         = (o, st1) ->
         get_exchange_client w' user_id exchange_name st1 = (Ok client, st1)).
Proof.
  intros Hhit. split.
  - intros o st1 Hdelete. apply get_exchange_client_hit.
    unfold delete_exchange_api_key, bind, ret, redis_delete in Hdelete.
    destruct (redis_down w); simplify_eq; exact Hhit.
  - intros api_key api_secret o st1 Hsave. apply get_exchange_client_hit.
    unfold save_exchange_api_key, encrypt_data, bind, ret, redis_set in Hsave.
    destruct (redis_down w); simplify_eq; exact Hhit.
Qed.

Lemma cached_client_outlives_its_keys_witness :
  get_exchange_client Sample.world2 "u1" "binance"
    (snd (delete_exchange_api_key Sample.world1 "u1" "binance"
            Sample.state1_cached))
  = (Ok Sample.client,
     snd (delete_exchange_api_key Sample.world1 "u1" "binance"
            Sample.state1_cached)).
Proof.
  apply (proj1 (cached_client_outlives_its_keys Sample.world1 Sample.world2
                  SampleApi.services "u1" "binance" Sample.client
                  Sample.state1_cached eq_refl)
           (Ok true)).
  vm_compute. reflexivity.
Defined.

(** ** Keys built from text *)

Lemma string_app_nil (b : string) : "" +:+ b = b.
Proof. reflexivity. Qed.

Lemma string_app_cons ch (a b : string) :
  String ch a +:+ b = String ch (a +:+ b).
Proof. reflexivity. Qed.

Lemma string_app_assoc (a b c : string) : (a +:+ b) +:+ c = a +:+ (b +:+ c).
Proof.
  induction a as [| ch a IH]; [reflexivity |].
  rewrite !string_app_cons. now rewrite IH.
Qed.

Lemma colon_free_app a b :
  colon_free (a +:+ b) = colon_free a && colon_free b.
Proof.
  induction a as [| ch a IH]; [reflexivity |].
  rewrite string_app_cons. cbn. rewrite IH. now rewrite andb_assoc.
Qed.

(** A text without colon ends at the first colon of what it starts. *)
Lemma first_colon_inj a a' r r' :
  colon_free a = true -> colon_free a' = true ->
  a +:+ ":" +:+ r = a' +:+ ":" +:+ r' -> a = a' /\ r = r'.
Proof.
  revert a'. induction a as [| ch a IH]; intros [| ch' a'] Ha Ha' Heq;
    repeat (rewrite string_app_nil in Heq || rewrite string_app_cons in Heq).
  - now injection Heq as ->.
  - injection Heq as <- _. cbn in Ha'. discriminate.
  - injection Heq as -> _. cbn in Ha. discriminate.
  - injection Heq as -> Heq.
    cbn in Ha, Ha'. apply andb_prop in Ha as [_ Ha], Ha' as [_ Ha'].
    destruct (IH a' Ha Ha' Heq) as [-> ->]. auto.
Qed.

(** A text without colon starts after the last colon of what it ends. *)
Lemma last_colon_inj a a' r r' :
  colon_free r = true -> colon_free r' = true ->
  a +:+ ":" +:+ r = a' +:+ ":" +:+ r' -> a = a' /\ r = r'.
Proof.
  revert a'. induction a as [| ch a IH]; intros [| ch' a'] Hr Hr' Heq;
    repeat (rewrite string_app_nil in Heq || rewrite string_app_cons in Heq).
  - now injection Heq as ->.
  - injection Heq as <- Heq. subst r.
    rewrite colon_free_app in Hr. cbn in Hr.
    now rewrite andb_false_r in Hr.
  - injection Heq as -> Heq. subst r'.
    rewrite colon_free_app in Hr'. cbn in Hr'.
    now rewrite andb_false_r in Hr'.
  - injection Heq as -> Heq.
    destruct (IH a' Hr Hr' Heq) as [-> ->]. auto.
Qed.

(** X6.  For exchange names without a colon, as all of [ExchangeEnum] are,
    two pairs [(user_id, exchange_name)] share a cache entry only when they
    are the same pair: a call for one pair never fills or changes the
    entry of another. *)
Theorem get_exchange_client_keeps_other_entries
    (w : World) (user1 exchange1 user2 exchange2 : string) (st : State)
    (o : outcome Client) (st1 : State) :
  colon_free exchange1 = true ->
  colon_free exchange2 = true ->
  (user1, exchange1) <> (user2, exchange2) ->
  get_exchange_client w user1 exchange1 st = (o, st1) ->
  client_key user1 exchange1 <> client_key user2 exchange2
  /\ exchange_clients st1 !! client_key user2 exchange2
     = exchange_clients st !! client_key user2 exchange2.
Proof.
  intros H1 H2 Hpairs Hrun.
  assert (Hkeys : client_key user1 exchange1 <> client_key user2 exchange2).
  { intros Heq. apply Hpairs. unfold client_key in Heq.
    destruct (last_colon_inj _ _ _ _ H1 H2 Heq) as [-> ->]. reflexivity. }
  split; [exact Hkeys |].
  destruct o as [client | e].
  - destruct (exchange_clients st !! client_key user1 exchange1) as [c |] eqn:Hc.
    + rewrite (get_exchange_client_hit _ _ _ _ _ Hc) in Hrun. now simplify_eq.
    + destruct (get_exchange_client_miss _ _ _ _ _ _ Hc Hrun) as (-> & _).
      now rewrite lookup_insert_ne.
  - now destruct (get_exchange_client_raise _ _ _ _ _ _ Hrun) as (-> & _).
Qed.

Lemma get_exchange_client_keeps_other_entries_witness :
  client_key "u1" "binance" <> client_key "u2" "binance"
  /\ exchange_clients Sample.state1_cached !! client_key "u2" "binance"
     = exchange_clients Sample.state1 !! client_key "u2" "binance".
Proof.
  apply (get_exchange_client_keeps_other_entries Sample.world1
           "u1" "binance" "u2" "binance" Sample.state1
           (Ok Sample.client) Sample.state1_cached).
  - reflexivity.
  - reflexivity.
  - discriminate.
  - vm_compute. reflexivity.
Defined.

(** ** The webhook handler, further *)

(** X7.  With Redis down the handler returns no result and raises no
    [HTTPException]: the configuration read fails, the failure record
    cannot be written either, and the Redis error itself leaves the
    handler, in an unchanged state. *)
Theorem webhook_redis_down
    (w : World) (alert : TradingViewAlertModel) (st : State) (msg : string) :
  redis_down w = Some msg ->
  process_tradingview_alert w alert st = (Raise (Exception msg), st).
Proof.
  intros Hdown.
  unfold process_tradingview_alert, alert_pipeline, get_alert_config,
    record_failure, save_alert_history, bind, redis_get, redis_set.
  rewrite !Hdown. reflexivity.
Qed.

Lemma webhook_redis_down_witness :
  process_tradingview_alert SampleApi.world_down (Sample.alert None)
    Sample.state1
  = (Raise (Exception "Error 111 connecting to redis:6379"), Sample.state1).
Proof.
  apply (webhook_redis_down SampleApi.world_down (Sample.alert None)
           Sample.state1).
  reflexivity.
Defined.

Lemma pipeline_run_orders w alert st o st' :
  pipeline_run w alert st o st' ->
  exists sent,
    orders_placed (trace st') = orders_placed (trace st) ++ sent
    /\ length sent <= 1
    /\ constructed st' <= S (constructed st).
Proof.
  assert (Hclient : forall u e s o1 s1,
             get_exchange_client w u e s = (o1, s1) ->
             constructed s1 <= S (constructed s)).
  { intros u e s o1 s1. unfold get_exchange_client, get_exchange_api_key.
    run_monad; intros; simplify_eq; cbn; lia. }
  assert (Hquantity : forall a c x s o1 s1,
             resolve_quantity w a c x s = (o1, s1) ->
             constructed s1 = constructed s).
  { intros a c x s o1 s1. unfold resolve_quantity, determine_quantity.
    run_monad; intros; simplify_eq; reflexivity. }
  assert (Horder : forall a c x q s o1 s1,
             execute_order w a c x q s = (o1, s1) ->
             constructed s1 = constructed s
             /\ exists sent,
                 orders_placed (trace s1) = orders_placed (trace s) ++ sent
                 /\ length sent <= 1).
  { intros a c x q s o1 s1. unfold execute_order, create_order.
    run_monad; intros; simplify_eq; cbn; (split; [reflexivity |]);
      unfold orders_placed; rewrite ?omap_app; cbn;
      first [ exists []; rewrite app_nil_r; split; [reflexivity | cbn; lia]
            | eexists [_]; split; [reflexivity | cbn; lia] ]. }
  inversion 1; subst;
    repeat match goal with
           | H : get_exchange_client _ _ _ _ = _ |- _ =>
               pose proof (Hclient _ _ _ _ _ H);
               apply get_exchange_client_quiet in H as [_ ?]
           | H : resolve_quantity _ _ _ _ _ = _ |- _ =>
               pose proof (Hquantity _ _ _ _ _ _ H);
               apply resolve_quantity_quiet in H as [_ ?]
           | H : execute_order _ _ _ _ _ _ = _ |- _ =>
               apply Horder in H as (? & sent & ? & ?)
           end;
    clear Hclient Hquantity Horder;
    try (exists []; rewrite app_nil_r; cbn;
         split; [congruence | split; [lia | lia]]).
  - exists sent. split; [etransitivity; [eassumption |]; f_equal; congruence | split; [assumption | lia]].
  - exists sent. cbn. split; [etransitivity; [eassumption |]; f_equal; congruence | split; [assumption | lia]].
Qed.

(** X8.  One webhook call places at most one order and constructs at most
    one client, whatever the alert, the stored documents and the answers
    of the exchange. *)
Theorem webhook_at_most_one_order
    (w : World) (alert : TradingViewAlertModel) (st : State) :
  exists sent,
    orders_placed (trace (snd (process_tradingview_alert w alert st)))
    = orders_placed (trace st) ++ sent
    /\ length sent <= 1
    /\ constructed (snd (process_tradingview_alert w alert st))
       <= S (constructed st).
Proof.
  destruct (alert_pipeline w alert st) as [o st1] eqn:Hrun.
  destruct (pipeline_run_orders _ _ _ _ _ (alert_pipeline_run _ _ _ _ _ Hrun))
    as (sent & Hsent & Hone & Hclients).
  exists sent. rewrite process_tradingview_alert_trace, Hrun. cbn.
  split; [exact Hsent | split; [exact Hone |]].
  unfold process_tradingview_alert. rewrite Hrun.
  destruct o as [result | [status detail | msg]]; cbn; try exact Hclients.
  unfold record_failure, save_alert_history, bind, redis_set, ret. cbn.
  destruct (redis_down w); exact Hclients.
Qed.

Ltac eqb_to_eq :=
  repeat match goal with
         | H : String.eqb _ _ = true |- _ => apply String.eqb_eq in H
         | H : (_ || _) = true |- _ => apply orb_true_iff in H
         end.

(** X9.  Every request [execute_order] sends goes to the given client for
    the config's symbol and the resolved quantity, as a buy exactly when
    [position_side] is "long" and as a sell otherwise.  A market order
    carries no price and no params, a limit order a price and no params,
    and both [stop_loss] and [take_profit] go out as type "stop" with the
    price repeated as the param [stopPrice]. *)
Theorem execute_order_request
    (w : World) (alert : TradingViewAlertModel) (config : AlertConfig)
    (exchange : Client) (quantity : float) (st : State)
    (o : outcome (option Receipt)) (st' : State)
    (client : Client) (request : OrderRequest) :
  execute_order w alert config exchange quantity st = (o, st') ->
  trace st' = trace st ++ [CreateOrder client request] ->
  client = exchange
  /\ req_symbol request = cfg_symbol config
  /\ req_amount request = quantity
  /\ req_side request
     = (if String.eqb (cfg_position_side config) "long" then "buy" else "sell")
  /\ (cfg_order_type config = "market" /\ req_type request = "market"
      /\ req_price request = None /\ req_params request = ∅
      \/ cfg_order_type config = "limit" /\ req_type request = "limit"
         /\ (exists price, req_price request = Some price)
         /\ req_params request = ∅
      \/ cfg_order_type config ∈ ["stop_loss"; "take_profit"]
         /\ req_type request = "stop"
         /\ exists price, req_price request = Some price
                          /\ req_params request = {[ "stopPrice" := price ]}).
Proof.
  unfold execute_order, create_order, order_side.
  run_monad; intros; simplify_eq; cbn in *;
    try match goal with
        | H : ?t = ?t ++ [_] |- _ =>
            rewrite <- (app_nil_r t) in H at 1;
            apply app_inv_head in H; discriminate
        end;
    match goal with
    | H : _ ++ [_] = _ ++ [_] |- _ =>
        apply app_inv_head in H; injection H as <- <-
    end;
    eqb_to_eq; cbn; repeat split; eauto;
    try (right; left; repeat split; eauto; fail);
    right; right; (split; [| split; [reflexivity | eauto]]);
    match goal with
    | H : _ \/ _ |- _ =>
        destruct H as [H | H]; apply String.eqb_eq in H; rewrite H;
        rewrite !elem_of_cons; auto
    end.
Qed.

Lemma execute_order_request_witness :
  req_type
    {| req_symbol := "BTC/USDT"; req_type := "stop"; req_side := "buy";
       req_amount := 0.5%float; req_price := Some 100%float;
       req_params := {[ "stopPrice" := 100%float ]} |} = "stop"
  /\ execute_order Sample.world1 (Sample.alert None)
       (Sample.with_order "take_profit" (Some 100%float) Sample.config)
       Sample.client 0.5%float Sample.state1
     = dispatched Sample.world1 Sample.client
         {| req_symbol := "BTC/USDT"; req_type := "stop"; req_side := "buy";
            req_amount := 0.5%float; req_price := Some 100%float;
            req_params := {[ "stopPrice" := 100%float ]} |}
         Sample.state1.
Proof.
  assert (Hrun : execute_order Sample.world1 (Sample.alert None)
                   (Sample.with_order "take_profit" (Some 100%float)
                      Sample.config)
                   Sample.client 0.5%float Sample.state1
                 = dispatched Sample.world1 Sample.client
                     {| req_symbol := "BTC/USDT"; req_type := "stop";
                        req_side := "buy"; req_amount := 0.5%float;
                        req_price := Some 100%float;
                        req_params := {[ "stopPrice" := 100%float ]} |}
                     Sample.state1)
    by (vm_compute; reflexivity).
  split; [| exact Hrun].
  destruct (execute_order_request _ _ _ _ _ _ _ _ Sample.client _ Hrun eq_refl)
    as (_ & _ & _ & _ & [(Hmarket & _) | [(Hlimit & _) | (_ & Hstop & _)]]).
  - discriminate Hmarket.
  - discriminate Hlimit.
  - exact Hstop.
Defined.

(** ** Splitting *)

Lemma colon_free_lacks s : colon_free s = lacks ":" s.
Proof. induction s as [| ch s IH]; cbn; congruence. Qed.

Lemma split_nonempty sep s : split sep s <> [].
Proof.
  destruct s as [| ch s]; cbn; [discriminate |].
  destruct (Ascii.eqb ch sep); [discriminate |].
  destruct (split sep s); discriminate.
Qed.

Lemma split_lacks sep s : lacks sep s = true -> split sep s = [s].
Proof.
  induction s as [| ch s IH]; cbn; [reflexivity |].
  destruct (Ascii.eqb ch sep); cbn; [discriminate |].
  intros H. now rewrite (IH H).
Qed.

Lemma split_app_sep sep a n :
  split sep (a +:+ String sep n) = split sep a ++ split sep n.
Proof.
  induction a as [| ch a IH].
  - rewrite string_app_nil. cbn. now rewrite Ascii.eqb_refl.
  - rewrite string_app_cons. cbn. rewrite IH.
    destruct (Ascii.eqb ch sep); [reflexivity |].
    destruct (split sep a) as [| piece pieces] eqn:Hsplit; [| reflexivity].
    now apply split_nonempty in Hsplit.
Qed.

Lemma split_pieces_lack sep s :
  Forall (fun piece => lacks sep piece = true) (split sep s).
Proof.
  induction s as [| ch s IH]; cbn; [repeat constructor |].
  destruct (Ascii.eqb ch sep) eqn:Hch; [constructor; [reflexivity | exact IH] |].
  destruct (split sep s) as [| piece pieces]; [repeat constructor; cbn; now rewrite Hch |].
  inversion IH; subst. constructor; [| assumption].
  cbn. rewrite Hch. assumption.
Qed.

Lemma py_last_app l1 l2 : l2 <> [] -> py_last (l1 ++ l2) = py_last l2.
Proof.
  unfold py_last. intros Hne. induction l1 as [| x l1 IH]; [reflexivity |].
  cbn. destruct (l1 ++ l2) eqn:Happ; [| exact IH].
  apply app_eq_nil in Happ as [_ ->]. contradiction.
Qed.

Lemma py_last_lacks sep s : lacks sep (py_last (split sep s)) = true.
Proof.
  pose proof (split_pieces_lack sep s) as Hall.
  pose proof (split_nonempty sep s) as Hne.
  unfold py_last. induction (split sep s) as [| x l IH]; [contradiction |].
  inversion Hall; subst. destruct l as [| y l]; [assumption |].
  apply IH; [assumption | discriminate].
Qed.

(** The last piece of [prefix:name] is [name] when [name] has no colon. *)
Lemma py_last_split_name a name :
  colon_free name = true -> py_last (split ":" (a +:+ ":" +:+ name)) = name.
Proof.
  intros Hname. rewrite colon_free_lacks in Hname.
  change (":" +:+ name) with (String ":" name).
  rewrite split_app_sep, py_last_app by apply split_nonempty.
  now rewrite (split_lacks _ _ Hname).
Qed.

(** ** The webhook handler on a symbol that is no pair *)

Lemma alert_pipeline_quantity_failed w alert st config exchange st1 e st2 :
  redis_down w = None ->
  redis st !! config_key alert = Some (StoredConfig config) ->
  get_exchange_client w (alert_user_id alert) (cfg_exchange config) st
  = (Ok exchange, st1) ->
  resolve_quantity w alert config exchange st1 = (Raise e, st2) ->
  alert_pipeline w alert st = (Raise e, st2).
Proof.
  intros Hup Hconfig Hclient Hquantity.
  unfold alert_pipeline, get_alert_config, bind, redis_get.
  fold (config_key alert). rewrite Hup, Hconfig, Hclient.
  unfold bind in Hquantity |- *. now rewrite Hquantity.
Qed.

(** X10.  A percentage configuration whose symbol has no "/" does not end
    in a 400: after the balance is fetched, [symbol.split("/")[1]] raises
    an [IndexError], so the handler returns a result with [success = false]
    and the message "Error executing order: list index out of range", and
    no order is placed. *)
Theorem webhook_symbol_without_slash
    (w : World) (alert : TradingViewAlertModel) (st : State)
    (config : AlertConfig) (exchange : Client) (st1 : State)
    (balance : Balance) :
  redis_down w = None ->
  redis st !! config_key alert = Some (StoredConfig config) ->
  get_exchange_client w (alert_user_id alert) (cfg_exchange config) st
  = (Ok exchange, st1) ->
  truthy (cfg_quantity config) = false ->
  truthy (cfg_quantity_percentage config) = true ->
  exchange_fetch_balance w exchange = inr balance ->
  lacks "/" (cfg_symbol config) = true ->
  exists result st',
    process_tradingview_alert w alert st = (Ok result, st')
    /\ res_success result = false
    /\ res_message result
       = Some "Error executing order: list index out of range"
    /\ trace st' = trace st1 ++ [FetchBalance exchange].
Proof.
  intros Hup Hconfig Hclient Hfixed Hpct Hbalance Hsymbol.
  assert (Hquantity : resolve_quantity w alert config exchange st1
                      = (Raise (Exception "list index out of range"),
                         logged [FetchBalance exchange] st1)).
  { apply truthy_value_None in Hfixed. unfold truthy in Hpct.
    destruct (truthy_value (cfg_quantity_percentage config)) as [pct |] eqn:Hp;
      [| discriminate].
    unfold resolve_quantity, determine_quantity, bind, emit, lift, py_index,
      raise, ret.
    rewrite Hfixed, Hp. cbn. rewrite Hbalance, (split_lacks _ _ Hsymbol).
    reflexivity. }
  pose proof (alert_pipeline_quantity_failed _ _ _ _ _ _ _ _
                Hup Hconfig Hclient Hquantity) as Hrun.
  unfold process_tradingview_alert. rewrite Hrun.
  rewrite (record_failure_run _ _ _ _ Hup).
  do 2 eexists. split; [reflexivity |]. cbn. auto.
Qed.

Lemma webhook_symbol_without_slash_witness :
  exists result st',
    process_tradingview_alert Sample.world1 (Sample.alert None)
      (Sample.state true
         (Sample.with_quantity None (Some 10%float)
            (SampleApi.with_symbol "BTCUSDT" Sample.config)))
    = (Ok result, st')
    /\ res_success result = false
    /\ res_message result
       = Some "Error executing order: list index out of range"
    /\ trace st' = trace Sample.state1_cached ++ [FetchBalance Sample.client].
Proof.
  apply (webhook_symbol_without_slash Sample.world1 (Sample.alert None)
           (Sample.state true
              (Sample.with_quantity None (Some 10%float)
                 (SampleApi.with_symbol "BTCUSDT" Sample.config)))
           (Sample.with_quantity None (Some 10%float)
              (SampleApi.with_symbol "BTCUSDT" Sample.config))
           Sample.client
           {| exchange_clients := {[ "u1:binance" := Sample.client ]};
              redis := redis (Sample.state true
                                (Sample.with_quantity None (Some 10%float)
                                   (SampleApi.with_symbol "BTCUSDT"
                                      Sample.config)));
              constructed := 1;
              trace := trace Sample.state1_cached |}
           {[ "USDT" := Some 1000%float ]});
    reflexivity.
Defined.

(** ** The configuration endpoints *)

Lemma create_alert_config_run w sv config st :
  redis_down w = None ->
  create_alert_config w sv config st
  = (Ok (true, "Configuration saved successfully"),
     {| exchange_clients := exchange_clients st;
        redis := <["user:default:alert_config:" +:+ cfg_name config
                   := StoredConfig config]> (redis st);
        constructed := constructed st;
        trace := trace st |}).
Proof.
  intros Hup.
  unfold create_alert_config, or_500, save_alert_config, bind, ret, redis_set.
  now rewrite Hup.
Qed.

Lemma get_config_run w config_name st :
  redis_down w = None ->
  get_config w config_name st
  = (match redis st !! ("user:default:alert_config:" +:+ config_name) with
     | Some doc => Ok doc
     | None => Raise (HTTPException 404
                        ("Configuration " +:+ config_name +:+ " not found"))
     end, st).
Proof.
  intros Hup.
  unfold get_config, or_500_unless_http, get_alert_config, bind, ret, raise,
    redis_get.
  rewrite Hup.
  change ("user:" +:+ "default" +:+ ":alert_config:" +:+ config_name)
    with ("user:default:alert_config:" +:+ config_name).
  now destruct (redis st !! ("user:default:alert_config:" +:+ config_name)).
Qed.

(** X11.  [POST /api/config] then [GET /api/config/{name}] gives the
    configuration back, and a second POST under the same name replaces the
    first: the last write wins. *)
Theorem config_round_trip
    (w : World) (sv : Services) (config config' : AlertConfig) (st : State) :
  redis_down w = None ->
  cfg_name config' = cfg_name config ->
  exists st1 st2,
    create_alert_config w sv config st
    = (Ok (true, "Configuration saved successfully"), st1)
    /\ get_config w (cfg_name config) st1 = (Ok (StoredConfig config), st1)
    /\ create_alert_config w sv config' st1
       = (Ok (true, "Configuration saved successfully"), st2)
    /\ get_config w (cfg_name config) st2 = (Ok (StoredConfig config'), st2).
Proof.
  intros Hup Hname.
  do 2 eexists. split; [apply (create_alert_config_run _ _ _ _ Hup) |].
  split; [| split; [apply (create_alert_config_run _ _ _ _ Hup) |]].
  - rewrite (get_config_run _ _ _ Hup). cbn. now rewrite lookup_insert_eq.
  - rewrite (get_config_run _ _ _ Hup). cbn.
    now rewrite Hname, lookup_insert_eq.
Qed.

Lemma config_round_trip_witness :
  exists st1 st2,
    create_alert_config Sample.world1 SampleApi.services Sample.config
      (SampleApi.over ∅)
    = (Ok (true, "Configuration saved successfully"), st1)
    /\ get_config Sample.world1 "c1" st1 = (Ok (StoredConfig Sample.config), st1)
    /\ create_alert_config Sample.world1 SampleApi.services
         (Sample.with_order "limit" (Some 100%float) Sample.config) st1
       = (Ok (true, "Configuration saved successfully"), st2)
    /\ get_config Sample.world1 "c1" st2
       = (Ok (StoredConfig
                (Sample.with_order "limit" (Some 100%float) Sample.config)),
          st2).
Proof.
  apply (config_round_trip Sample.world1 SampleApi.services Sample.config
           (Sample.with_order "limit" (Some 100%float) Sample.config)
           (SampleApi.over ∅));
    reflexivity.
Defined.

(** X12.  [GET /api/config/{name}] raises only [HTTPException]s: 404 with
    "Configuration <name> not found" when nothing is stored under the
    name, and 500 with the Redis error text when Redis cannot be reached;
    the state is left as it was. *)
Theorem get_config_errors (w : World) (config_name : string) (st : State) :
  (redis_down w = None ->
   redis st !! ("user:default:alert_config:" +:+ config_name) = None ->
   get_config w config_name st
   = (Raise (HTTPException 404
               ("Configuration " +:+ config_name +:+ " not found")), st))
  /\ (forall msg,
         redis_down w = Some msg ->
         get_config w config_name st = (Raise (HTTPException 500 msg), st)).
Proof.
  split.
  - intros Hup Hnone. now rewrite (get_config_run _ _ _ Hup), Hnone.
  - intros msg Hdown.
    unfold get_config, or_500_unless_http, get_alert_config, bind, redis_get.
    now rewrite Hdown.
Qed.

Lemma get_config_errors_witness :
  get_config Sample.world1 "nope" Sample.state1
  = (Raise (HTTPException 404 "Configuration nope not found"), Sample.state1)
  /\ get_config SampleApi.world_down "c1" Sample.state1
     = (Raise (HTTPException 500 "Error 111 connecting to redis:6379"),
        Sample.state1).
Proof.
  split.
  - apply (get_config_errors Sample.world1 "nope" Sample.state1); reflexivity.
  - apply (get_config_errors SampleApi.world_down "c1" Sample.state1).
    reflexivity.
Defined.

(** X13.  [DELETE /api/config/{name}] answers whether a document was
    stored under the name; afterwards [GET] raises 404 and a second
    [DELETE] answers false. *)
Theorem remove_config_forgets
    (w : World) (sv : Services) (config_name : string) (st : State) :
  redis_down w = None ->
  exists st1 st2,
    remove_config w sv config_name st
    = (Ok (bool_decide
             (is_Some (redis st !! ("user:default:alert_config:"
                                    +:+ config_name)))), st1)
    /\ get_config w config_name st1
       = (Raise (HTTPException 404
                   ("Configuration " +:+ config_name +:+ " not found")), st1)
    /\ remove_config w sv config_name st1 = (Ok false, st2).
Proof.
  intros Hup.
  unfold remove_config, or_500, delete_alert_config, bind, ret, redis_delete.
  rewrite !Hup. cbn. do 2 eexists. split; [| split].
  - destruct (redis st !! _); reflexivity.
  - rewrite (get_config_run _ _ _ Hup). cbn. now rewrite lookup_delete_eq.
  - cbn. now rewrite lookup_delete_eq.
Qed.

Lemma remove_config_forgets_witness :
  exists st1 st2,
    remove_config Sample.world1 SampleApi.services "c1"
      (SampleApi.over {[ "user:default:alert_config:c1" := StoredConfig Sample.config ]})
    = (Ok true, st1)
    /\ get_config Sample.world1 "c1" st1
       = (Raise (HTTPException 404 "Configuration c1 not found"), st1)
    /\ remove_config Sample.world1 SampleApi.services "c1" st1 = (Ok false, st2).
Proof.
  exact (remove_config_forgets Sample.world1 SampleApi.services "c1"
           (SampleApi.over
              {[ "user:default:alert_config:c1" := StoredConfig Sample.config ]})
           eq_refl).
Defined.

(** X14.  With Redis down every management endpoint that reads or writes
    it raises [HTTPException(500)] carrying the Redis error text. *)
Theorem management_endpoints_redis_down
    (w : World) (sv : Services) (st : State) (msg : string)
    (api_key : ApiKeyModel) (config : AlertConfig) (name : string)
    (limit : Z) :
  redis_down w = Some msg ->
  add_api_key w sv api_key st = (Raise (HTTPException 500 msg), st)
  /\ get_api_key_status w sv name st
     = (Raise (HTTPException 500 msg), logged [VaultRead "default" name] st)
  /\ remove_api_key w sv name st = (Raise (HTTPException 500 msg), st)
  /\ create_alert_config w sv config st = (Raise (HTTPException 500 msg), st)
  /\ get_config w name st = (Raise (HTTPException 500 msg), st)
  /\ list_configs w sv st = (Raise (HTTPException 500 msg), st)
  /\ remove_config w sv name st = (Raise (HTTPException 500 msg), st)
  /\ get_user_alert_history w sv limit st = (Raise (HTTPException 500 msg), st).
Proof.
  intros Hdown.
  unfold add_api_key, get_api_key_status, remove_api_key, create_alert_config,
    get_config, list_configs, remove_config, get_user_alert_history,
    or_500, or_500_unless_http, save_exchange_api_key, encrypt_data,
    get_exchange_api_key, delete_exchange_api_key, save_alert_config,
    get_alert_config, get_all_alert_configs, delete_alert_config,
    get_alert_history, bind, ret, emit, redis_set, redis_get, redis_delete,
    redis_keys.
  rewrite !Hdown. cbn. rewrite ?Hdown. repeat split; reflexivity.
Qed.

Lemma management_endpoints_redis_down_witness :
  list_configs SampleApi.world_down SampleApi.services Sample.state1
  = (Raise (HTTPException 500 "Error 111 connecting to redis:6379"),
     Sample.state1).
Proof.
  apply (management_endpoints_redis_down SampleApi.world_down
           SampleApi.services Sample.state1
           "Error 111 connecting to redis:6379"
           {| key_exchange := "binance"; key_api_key := "key";
              key_api_secret := "secret" |}
           Sample.config "c1" 20%Z).
  reflexivity.
Defined.

(** ** The endpoints and the webhook together *)

(** X15.  The endpoints store under the user "default".  A configuration
    created through [POST /api/config] is the one an alert of user
    "default" naming it is looked up to; for an alert of any other user id
    without a colon the creation changes nothing: if no configuration was
    stored for it before, the webhook still raises 404. *)
Theorem created_config_belongs_to_default
    (w : World) (sv : Services) (config : AlertConfig) (st st1 : State)
    (alert : TradingViewAlertModel) :
  redis_down w = None ->
  create_alert_config w sv config st
  = (Ok (true, "Configuration saved successfully"), st1) ->
  (alert_user_id alert = "default" ->
   alert_config_name alert = cfg_name config ->
   redis st1 !! config_key alert = Some (StoredConfig config))
  /\ (colon_free (alert_user_id alert) = true ->
      alert_user_id alert <> "default" ->
      redis st !! config_key alert = None ->
      process_tradingview_alert w alert st1
      = (Raise (HTTPException 404
                  ("Configuration '" +:+ alert_config_name alert
                   +:+ "' not found")), st1)).
Proof.
  intros Hup Hcreate. rewrite (create_alert_config_run _ _ _ _ Hup) in Hcreate.
  injection Hcreate as <-. split.
  - intros Huser Hname. unfold config_key. rewrite Huser, Hname. cbn.
    apply lookup_insert_eq.
  - intros Hfree Hother Hnone.
    assert (Hkey : "user:default:alert_config:" +:+ cfg_name config
                   <> config_key alert).
    { unfold config_key. intros Heq.
      change ("user:default:alert_config:" +:+ cfg_name config)
        with ("user:" +:+ "default" +:+ ":" +:+ "alert_config:"
              +:+ cfg_name config) in Heq.
      change (":alert_config:" +:+ alert_config_name alert)
        with (":" +:+ "alert_config:" +:+ alert_config_name alert) in Heq.
      apply (inj (String.app "user:")) in Heq.
      apply first_colon_inj in Heq as [Heq _]; [| reflexivity | assumption].
      now apply Hother. }
    unfold process_tradingview_alert, alert_pipeline, get_alert_config,
      bind, redis_get.
    fold (config_key alert). rewrite Hup. cbn.
    now rewrite lookup_insert_ne, Hnone by exact Hkey.
Qed.

Lemma created_config_belongs_to_default_witness :
  process_tradingview_alert Sample.world1 (Sample.alert None)
    (snd (create_alert_config Sample.world1 SampleApi.services Sample.config
            (SampleApi.over ∅)))
  = (Raise (HTTPException 404 "Configuration 'c1' not found"),
     snd (create_alert_config Sample.world1 SampleApi.services Sample.config
            (SampleApi.over ∅))).
Proof.
  apply (proj2 (created_config_belongs_to_default Sample.world1
                  SampleApi.services Sample.config (SampleApi.over ∅)
                  (snd (create_alert_config Sample.world1 SampleApi.services
                          Sample.config (SampleApi.over ∅)))
                  (Sample.alert None) eq_refl eq_refl)).
  - reflexivity.
  - discriminate.
  - reflexivity.
Defined.

(** ** Sorting keys *)

Lemma insert_reverse_perm k l : insert_reverse k l ≡ₚ k :: l.
Proof.
  induction l as [| x l IH]; cbn; [reflexivity |].
  destruct (String.leb x k); [reflexivity |].
  rewrite IH. apply perm_swap.
Qed.

Lemma sort_reverse_cons x l :
  sort_reverse (x :: l) = insert_reverse x (sort_reverse l).
Proof. reflexivity. Qed.

Lemma sort_reverse_perm l : sort_reverse l ≡ₚ l.
Proof.
  induction l as [| x l IH]; [reflexivity |].
  rewrite sort_reverse_cons, insert_reverse_perm. now rewrite IH.
Qed.

Lemma insert_reverse_sorted k l :
  Sorted (fun a b => String.leb b a = true) l ->
  Sorted (fun a b => String.leb b a = true) (insert_reverse k l).
Proof.
  induction l as [| x l IH]; cbn; intros Hsorted.
  - repeat constructor.
  - destruct (String.leb x k) eqn:Hxk.
    + constructor; [assumption | constructor; assumption].
    + apply Sorted_inv in Hsorted as [Hl Hhd].
      constructor; [apply IH; assumption |].
      assert (Hkx : String.leb k x = true)
        by (destruct (String.leb_total k x); congruence).
      destruct l as [| y l]; cbn; [constructor; assumption |].
      destruct (String.leb y k); constructor; [assumption |].
      now inversion Hhd.
Qed.

Lemma sort_reverse_sorted l :
  Sorted (fun a b => String.leb b a = true) (sort_reverse l).
Proof.
  induction l as [| x l IH]; [constructor |].
  rewrite sort_reverse_cons. now apply insert_reverse_sorted.
Qed.

(** The greatest key comes first. *)
Lemma sort_reverse_head k l :
  k ∈ l -> (forall x, x ∈ l -> String.leb x k = true) ->
  exists rest, sort_reverse l = k :: rest.
Proof.
  induction l as [| x l IH]; intros Hin Hmax; [now apply elem_of_nil in Hin |].
  rewrite sort_reverse_cons. destruct (decide (k ∈ l)) as [Hl | Hl].
  - destruct IH as [rest Hrest]; [assumption | |].
    { intros y Hy. apply Hmax. now right. }
    rewrite Hrest. cbn. destruct (String.leb k x) eqn:Hkx.
    + assert (x = k) as ->.
      { apply String.leb_antisym; [| assumption]. apply Hmax. now left. }
      eauto.
    + eauto.
  - apply elem_of_cons in Hin as [-> | Hin]; [| contradiction].
    destruct (sort_reverse l) as [| y rest] eqn:Hsort; cbn; [eauto |].
    assert (Hy : y ∈ l).
    { rewrite <- (sort_reverse_perm l), Hsort. now left. }
    rewrite (Hmax y) by now right. eauto.
Qed.

Lemma compare_app_prefix p a b :
  String.compare (p +:+ a) (p +:+ b) = String.compare a b.
Proof.
  induction p as [| ch p IH]; [reflexivity |].
  rewrite !string_app_cons. cbn.
  assert (Ascii.compare ch ch = Eq) as ->; [| exact IH].
  unfold Ascii.compare. apply N.compare_refl.
Qed.

Lemma leb_app_prefix p a b :
  String.leb (p +:+ a) (p +:+ b) = String.leb a b.
Proof. unfold String.leb. now rewrite compare_app_prefix. Qed.

Lemma glob_free_app a b : glob_free (a +:+ b) = glob_free a && glob_free b.
Proof.
  induction a as [| ch a IH]; [reflexivity |].
  rewrite string_app_cons. cbn. rewrite IH. now rewrite andb_assoc.
Qed.

(** ** The loops, with Redis up *)

Lemma collect_alert_history_run w keys result st :
  redis_down w = None ->
  collect_alert_history w keys result st
  = (Ok (result ++ omap (fun key => redis st !! key) keys), st).
Proof.
  intros Hup. revert result.
  induction keys as [| key keys IH]; intros result; cbn.
  - unfold ret. now rewrite app_nil_r.
  - unfold bind, redis_get. rewrite Hup.
    destruct (redis st !! key) as [doc |]; rewrite IH; [| reflexivity].
    now rewrite <- app_assoc.
Qed.

Lemma collect_alert_configs_run w user_id keys result st :
  redis_down w = None ->
  collect_alert_configs w user_id keys result st
  = (Ok (result ++ omap (listed_under user_id (redis st)) keys), st).
Proof.
  intros Hup. revert result.
  induction keys as [| key keys IH]; intros result; cbn.
  - unfold ret. now rewrite app_nil_r.
  - unfold bind, get_alert_config, redis_get, listed_under. rewrite Hup.
    destruct (redis st !! _) as [doc |]; rewrite IH; cbn; [| reflexivity].
    now rewrite <- app_assoc.
Qed.

Lemma get_all_alert_configs_run w sv user_id st :
  redis_down w = None ->
  get_all_alert_configs w sv user_id st
  = (Ok (omap (listed_under user_id (redis st))
           (redis_keys_reply sv (("user:" +:+ user_id +:+ ":alert_config:")
                                 +:+ "*") (redis st))), st).
Proof.
  intros Hup. unfold get_all_alert_configs, bind, redis_keys. rewrite Hup.
  rewrite (collect_alert_configs_run _ _ _ _ _ Hup). cbn.
  now rewrite !string_app_assoc.
Qed.

Lemma get_alert_history_run w sv user_id limit st :
  redis_down w = None ->
  get_alert_history w sv user_id limit st
  = (Ok (omap (fun key => redis st !! key)
           (py_slice_to
              (sort_reverse
                 (redis_keys_reply sv (history_prefix user_id +:+ "*")
                    (redis st))) limit)), st).
Proof.
  intros Hup. unfold get_alert_history, bind, redis_keys. rewrite Hup.
  rewrite (collect_alert_history_run _ _ _ _ Hup). cbn.
  unfold history_prefix. now rewrite !string_app_assoc.
Qed.

(** ** The sample server answers KEYS as Redis does *)

Lemma drop_last_star prefix : SampleApi.drop_last (prefix +:+ "*") = prefix.
Proof.
  induction prefix as [| ch prefix IH]; [reflexivity |].
  rewrite string_app_cons. cbn. rewrite IH.
  destruct prefix; reflexivity.
Qed.

Lemma prefix_app prefix key :
  String.prefix prefix key = true <-> exists rest, key = prefix +:+ rest.
Proof.
  revert key. induction prefix as [| ch prefix IH]; intros key.
  - split; [intros _; exists key; reflexivity | intros _; now destruct key].
  - destruct key as [| ch' key]; cbn.
    + split; [discriminate | intros [rest Hrest]; discriminate].
    + destruct (Ascii.ascii_dec ch ch') as [-> | Hne].
      * rewrite IH. split; intros [rest Hrest]; exists rest.
        -- now rewrite string_app_cons, Hrest.
        -- rewrite string_app_cons in Hrest. now injection Hrest.
      * split; [discriminate |].
        intros [rest Hrest]. rewrite string_app_cons in Hrest.
        injection Hrest as Hch _. congruence.
Qed.

Lemma sample_keys_reply_ok : keys_reply_ok SampleApi.services.
Proof.
  intros prefix store _. cbn. rewrite drop_last_star. split.
  - apply NoDup_filter, NoDup_fst_map_to_list.
  - intros key. rewrite list_elem_of_filter, prefix_app, list_elem_of_fmap.
    split.
    + intros [Hrest ([k doc] & -> & Hin)]. apply elem_of_map_to_list in Hin.
      cbn. split; [now exists doc | exact Hrest].
    + intros [[doc Hdoc] Hrest]. split; [exact Hrest |].
      exists (key, doc). split; [reflexivity |].
      now apply elem_of_map_to_list.
Qed.

(** ** Listing configurations *)

(** X16.  [get_all_alert_configs] looks every key up again under its last
    colon-separated piece: each entry of the listing carries a name
    without a colon and the document stored for the user under that name.
    So a configuration saved under a name with a colon is never listed
    under its name, although [get_alert_config] finds it. *)
Theorem listed_names_have_no_colon
    (w : World) (sv : Services) (user_id : string) (st : State)
    (listing : list ListedConfig) (st' : State) :
  get_all_alert_configs w sv user_id st = (Ok listing, st') ->
  st' = st
  /\ forall name doc,
      Listed name doc ∈ listing ->
      colon_free name = true
      /\ redis st !! ("user:" +:+ user_id +:+ ":alert_config:" +:+ name)
         = Some doc.
Proof.
  destruct (redis_down w) as [msg |] eqn:Hup.
  { unfold get_all_alert_configs, bind, redis_keys. now rewrite Hup. }
  rewrite (get_all_alert_configs_run _ _ _ _ Hup). intros [= <- <-].
  split; [reflexivity |].
  intros name doc (key & _ & Hkey)%list_elem_of_omap.
  unfold listed_under in Hkey.
  destruct (redis st !! _) as [doc' |] eqn:Hdoc; [| discriminate].
  injection Hkey as <- <-.
  split; [| exact Hdoc].
  rewrite colon_free_lacks. apply py_last_lacks.
Qed.

(** Two configurations of "default", c1 and a:b: only c1 is listed, and
    [GET /api/config/a:b] still answers. *)
Lemma listed_names_have_no_colon_witness :
  get_all_alert_configs Sample.world1 SampleApi.services "default"
    (SampleApi.over SampleApi.configs)
  = (Ok [Listed "c1" (StoredConfig Sample.config)],
     SampleApi.over SampleApi.configs)
  /\ get_config Sample.world1 "a:b" (SampleApi.over SampleApi.configs)
     = (Ok (StoredConfig (SampleApi.named "a:b" Sample.config)),
        SampleApi.over SampleApi.configs)
  /\ colon_free "c1" = true
  /\ redis (SampleApi.over SampleApi.configs)
       !! ("user:" +:+ "default" +:+ ":alert_config:" +:+ "c1")
     = Some (StoredConfig Sample.config).
Proof.
  assert (Hrun : get_all_alert_configs Sample.world1 SampleApi.services
                   "default" (SampleApi.over SampleApi.configs)
                 = (Ok [Listed "c1" (StoredConfig Sample.config)],
                    SampleApi.over SampleApi.configs))
    by (vm_compute; reflexivity).
  split; [exact Hrun | split; [vm_compute; reflexivity |]].
  apply (proj2 (listed_names_have_no_colon _ _ _ _ _ _ Hrun)).
  apply list_elem_of_here.
Defined.

Lemma config_key_last_piece user_id name :
  colon_free name = true ->
  py_last (split ":" ("user:" +:+ user_id +:+ ":alert_config:" +:+ name))
  = name.
Proof.
  intros Hname.
  change (":alert_config:" +:+ name) with (":alert_config" +:+ ":" +:+ name).
  rewrite <- !string_app_assoc. rewrite string_app_assoc.
  now apply py_last_split_name.
Qed.

(** X17.  For a user id without pattern characters and a name without a
    colon, the listing shows a document under that name exactly when it is
    stored for the user under that name. *)
Theorem stored_config_is_listed
    (w : World) (sv : Services) (user_id name : string) (doc : RedisValue)
    (st : State) :
  redis_down w = None ->
  keys_reply_ok sv ->
  glob_free user_id = true ->
  colon_free name = true ->
  exists listing,
    get_all_alert_configs w sv user_id st = (Ok listing, st)
    /\ (Listed name doc ∈ listing
        <-> redis st !! ("user:" +:+ user_id +:+ ":alert_config:" +:+ name)
            = Some doc).
Proof.
  intros Hup Hreply Huser Hname.
  eexists. split; [apply (get_all_alert_configs_run _ _ _ _ Hup) |].
  rewrite list_elem_of_omap. split.
  - intros (key & _ & Hkey). unfold listed_under in Hkey.
    destruct (redis st !! _) as [doc' |] eqn:Hdoc; [| discriminate].
    injection Hkey as Hlast <-. now rewrite Hlast in Hdoc.
  - intros Hdoc.
    exists ("user:" +:+ user_id +:+ ":alert_config:" +:+ name). split.
    + apply Hreply.
      * rewrite !glob_free_app, Huser. reflexivity.
      * split; [eauto |]. exists name. now rewrite !string_app_assoc.
    + unfold listed_under. rewrite (config_key_last_piece _ _ Hname).
      now rewrite Hdoc.
Qed.

Lemma stored_config_is_listed_witness :
  exists listing,
    get_all_alert_configs Sample.world1 SampleApi.services "u1" Sample.state1
    = (Ok listing, Sample.state1)
    /\ (Listed "c1" (StoredConfig Sample.config) ∈ listing
        <-> redis Sample.state1 !! "user:u1:alert_config:c1"
            = Some (StoredConfig Sample.config)).
Proof.
  exact (stored_config_is_listed Sample.world1 SampleApi.services "u1" "c1"
           (StoredConfig Sample.config) Sample.state1
           eq_refl sample_keys_reply_ok eq_refl eq_refl).
Defined.

(** ** Reading the history *)

Lemma py_slice_to_take {A} (l : list A) limit :
  exists n, py_slice_to l limit = take n l.
Proof. unfold py_slice_to. destruct (0 <=? limit)%Z; eauto. Qed.

Lemma Sorted_take {A} (R : A -> A -> Prop) n l :
  Sorted R l -> Sorted R (take n l).
Proof.
  revert n. induction l as [| x l IH]; intros [| n] Hsorted; cbn;
    try constructor.
  - apply IH. now apply Sorted_inv in Hsorted.
  - apply Sorted_inv in Hsorted as [_ Hhd].
    destruct l as [| y l]; destruct n; cbn; constructor.
    now inversion Hhd.
Qed.

Lemma elem_of_take_elem {A} (x : A) n l : x ∈ take n l -> x ∈ l.
Proof.
  intros (i & Hi & _)%elem_of_take. eapply list_elem_of_lookup_2, Hi.
Qed.

Lemma omap_lookup_length (store : gmap string RedisValue) keys :
  (forall key, key ∈ keys -> is_Some (store !! key)) ->
  length (omap (fun key => store !! key) keys) = length keys.
Proof.
  induction keys as [| key keys IH]; intros Hall; [reflexivity |].
  cbn. destruct (Hall key) as [doc ->]; [now left |].
  cbn. f_equal. apply IH. intros k Hk. apply Hall. now right.
Qed.

Lemma reply_length sv prefix store :
  keys_reply_ok sv ->
  glob_free prefix = true ->
  length (redis_keys_reply sv (prefix +:+ "*") store)
  = stored_under prefix store.
Proof.
  intros Hreply Hfree. destruct (Hreply prefix store Hfree) as [Hnodup Hin].
  unfold stored_under. rewrite <- length_map_to_list.
  rewrite <- (length_fmap fst (map_to_list _)).
  apply Permutation_length, NoDup_Permutation;
    [exact Hnodup | apply NoDup_fst_map_to_list |].
  intros key. rewrite Hin, list_elem_of_fmap. split.
  - intros [[doc Hdoc] Hrest]. exists (key, doc). split; [reflexivity |].
    apply elem_of_map_to_list, map_lookup_filter_Some. split; [exact Hdoc |].
    cbn. now apply prefix_app.
  - intros ([k doc] & -> & Hentry).
    apply elem_of_map_to_list, map_lookup_filter_Some in Hentry
      as [Hdoc Hprefix].
    cbn in *. split; [eauto | now apply prefix_app].
Qed.

Section History.
Variables (w : World) (sv : Services) (user_id : string) (st : State).
Hypothesis Hup : redis_down w = None.
Hypothesis Hreply : keys_reply_ok sv.
Hypothesis Huser : glob_free user_id = true.

Lemma history_prefix_glob_free : glob_free (history_prefix user_id) = true.
Proof. unfold history_prefix. now rewrite !glob_free_app, Huser. Qed.

Lemma history_keys_stored limit key :
  key ∈ py_slice_to
          (sort_reverse
             (redis_keys_reply sv (history_prefix user_id +:+ "*") (redis st)))
          limit ->
  is_Some (redis st !! key)
  /\ exists rest, key = history_prefix user_id +:+ rest.
Proof.
  destruct (py_slice_to_take
              (sort_reverse
                 (redis_keys_reply sv (history_prefix user_id +:+ "*")
                    (redis st))) limit) as [n ->].
  intros Hkey%elem_of_take_elem. rewrite sort_reverse_perm in Hkey.
  now apply (Hreply _ _ history_prefix_glob_free).
Qed.

Lemma get_alert_history_length_aux limit :
  exists docs,
    get_alert_history w sv user_id limit st = (Ok docs, st)
    /\ length docs
       = if (0 <=? limit)%Z
         then Nat.min (Z.to_nat limit)
                (stored_under (history_prefix user_id) (redis st))
         else stored_under (history_prefix user_id) (redis st)
              - Z.to_nat (- limit).
Proof.
  eexists. split; [apply (get_alert_history_run _ _ _ _ _ Hup) |].
  rewrite omap_lookup_length
    by (intros key Hkey; now apply history_keys_stored in Hkey).
  unfold py_slice_to.
  destruct (0 <=? limit)%Z; rewrite length_take;
    rewrite (Permutation_length (sort_reverse_perm _));
    rewrite (reply_length _ _ _ Hreply history_prefix_glob_free); lia.
Qed.

Lemma sorted_docs keys :
  Sorted (fun a b => String.leb b a = true) keys ->
  (forall key, key ∈ keys ->
     exists doc, redis st !! key = Some doc
                 /\ key = history_prefix user_id +:+ doc_timestamp doc) ->
  Sorted not_older (omap (fun key => redis st !! key) keys).
Proof.
  induction keys as [| key keys IH]; intros Hsorted Hall; [constructor |].
  apply Sorted_inv in Hsorted as [Hsorted Hhd].
  destruct (Hall key) as (doc & Hdoc & Hkey); [now left |].
  cbn. rewrite Hdoc. constructor.
  - apply IH; [assumption |]. intros k Hk. apply Hall. now right.
  - destruct keys as [| key2 keys]; [constructor |].
    destruct (Hall key2) as (doc2 & Hdoc2 & Hkey2); [right; now left |].
    cbn. rewrite Hdoc2. constructor. unfold not_older.
    inversion Hhd as [| ? ? Hle]; subst.
    now rewrite leb_app_prefix in Hle.
Qed.

Lemma get_alert_history_newest_first_aux limit :
  history_well_keyed user_id (redis st) ->
  exists docs,
    get_alert_history w sv user_id limit st = (Ok docs, st)
    /\ Sorted not_older docs.
Proof.
  intros Hkeyed.
  eexists. split; [apply (get_alert_history_run _ _ _ _ _ Hup) |].
  apply sorted_docs.
  - destruct (py_slice_to_take
                (sort_reverse
                   (redis_keys_reply sv (history_prefix user_id +:+ "*")
                      (redis st))) limit) as [n ->].
    apply Sorted_take, sort_reverse_sorted.
  - intros key ([doc Hdoc] & rest & ->)%history_keys_stored.
    exists doc. split; [exact Hdoc |].
    destruct (Hkeyed _ _ Hdoc) as (record & -> & <-). reflexivity.
Qed.

End History.

(** X18.  For a user id without pattern characters, [get_alert_history]
    returns as many documents as there are keys under the user's prefix,
    cut to [limit] when [limit] is not negative; a negative [limit] drops
    that many of the oldest instead, as the slice [keys[:limit]] does. *)
Theorem get_alert_history_length
    (w : World) (sv : Services) (user_id : string) (limit : Z) (st : State) :
  redis_down w = None ->
  keys_reply_ok sv ->
  glob_free user_id = true ->
  exists docs,
    get_alert_history w sv user_id limit st = (Ok docs, st)
    /\ length docs
       = if (0 <=? limit)%Z
         then Nat.min (Z.to_nat limit)
                (stored_under (history_prefix user_id) (redis st))
         else stored_under (history_prefix user_id) (redis st)
              - Z.to_nat (- limit).
Proof. intros. now apply get_alert_history_length_aux. Qed.

(** X19.  When every key under the user's prefix holds a record keyed by
    its own timestamp, as [save_alert_history] writes them,
    [get_alert_history] returns the records newest first: no record is
    older, by the text of its timestamp, than the one after it. *)
Theorem get_alert_history_newest_first
    (w : World) (sv : Services) (user_id : string) (limit : Z) (st : State) :
  redis_down w = None ->
  keys_reply_ok sv ->
  glob_free user_id = true ->
  history_well_keyed user_id (redis st) ->
  exists docs,
    get_alert_history w sv user_id limit st = (Ok docs, st)
    /\ Sorted not_older docs.
Proof. intros. now apply get_alert_history_newest_first_aux. Qed.

Lemma get_alert_history_length_witness :
  exists docs,
    get_alert_history Sample.world1 SampleApi.services "u1" (-1)
      (SampleApi.over SampleApi.history)
    = (Ok docs, SampleApi.over SampleApi.history)
    /\ length docs = 2.
Proof.
  exact (get_alert_history_length Sample.world1 SampleApi.services "u1" (-1)
           (SampleApi.over SampleApi.history)
           eq_refl sample_keys_reply_ok eq_refl).
Defined.

Lemma sample_history_well_keyed : history_well_keyed "u1" SampleApi.history.
Proof.
  intros rest doc. unfold SampleApi.history.
  rewrite !lookup_insert_Some, lookup_singleton_Some.
  intros [[Hkey <-] | [_ [[Hkey <-] | [_ [Hkey <-]]]]];
    apply (inj (String.app (history_prefix "u1"))) in Hkey; subst rest;
    eexists; split; reflexivity.
Qed.

Lemma get_alert_history_newest_first_witness :
  exists docs,
    get_alert_history Sample.world1 SampleApi.services "u1" 20
      (SampleApi.over SampleApi.history)
    = (Ok docs, SampleApi.over SampleApi.history)
    /\ Sorted not_older docs.
Proof.
  exact (get_alert_history_newest_first Sample.world1 SampleApi.services
           "u1" 20 (SampleApi.over SampleApi.history)
           eq_refl sample_keys_reply_ok eq_refl sample_history_well_keyed).
Defined.

Lemma string_leb_refl s : String.leb s s = true.
Proof. now destruct (String.leb_total s s). Qed.

Lemma history_key_prefix user_id timestamp :
  "alert:" +:+ user_id +:+ ":" +:+ timestamp
  = history_prefix user_id +:+ timestamp.
Proof. unfold history_prefix. now rewrite !string_app_assoc. Qed.

Lemma save_alert_history_run w user_id record st :
  redis_down w = None ->
  save_alert_history w user_id record st
  = (Ok true,
     {| exchange_clients := exchange_clients st;
        redis := <[history_prefix user_id +:+ hist_timestamp record
                   := StoredHistory record]> (redis st);
        constructed := constructed st;
        trace := trace st |}).
Proof.
  intros Hup. unfold save_alert_history, redis_set.
  now rewrite Hup, history_key_prefix.
Qed.

(** X20.  A record saved with a timestamp that no stored key of the user
    exceeds is the first one [get_alert_history] returns, for every
    [limit] of at least 1. *)
Theorem saved_record_comes_first
    (w : World) (sv : Services) (user_id : string) (record : HistoryData)
    (limit : Z) (st : State) :
  redis_down w = None ->
  keys_reply_ok sv ->
  glob_free user_id = true ->
  (1 <= limit)%Z ->
  (forall rest,
      is_Some (redis st !! (history_prefix user_id +:+ rest)) ->
      String.leb rest (hist_timestamp record) = true) ->
  exists st1 docs,
    save_alert_history w user_id record st = (Ok true, st1)
    /\ get_alert_history w sv user_id limit st1
       = (Ok (StoredHistory record :: docs), st1).
Proof.
  intros Hup Hreply Huser Hlimit Hnewest.
  set (key := history_prefix user_id +:+ hist_timestamp record).
  set (store := <[key := StoredHistory record]> (redis st)).
  assert (Hfree : glob_free (history_prefix user_id) = true)
    by (unfold history_prefix; now rewrite !glob_free_app, Huser).
  destruct (Hreply _ store Hfree) as [_ Hin].
  destruct (sort_reverse_head key
              (redis_keys_reply sv (history_prefix user_id +:+ "*") store))
    as [rest Hsort].
  { apply Hin. split; [| now exists (hist_timestamp record)].
    unfold store. rewrite lookup_insert_eq. eauto. }
  { intros x [Hx [r ->]]%Hin. unfold key. rewrite leb_app_prefix.
    destruct (decide (history_prefix user_id +:+ r = key)) as [Heq | Hne].
    - apply (inj (String.app _)) in Heq as ->. apply string_leb_refl.
    - apply Hnewest. unfold store in Hx. now rewrite lookup_insert_ne in Hx. }
  exists {| exchange_clients := exchange_clients st; redis := store;
            constructed := constructed st; trace := trace st |}.
  exists (omap (fun k => store !! k) (take (pred (Z.to_nat limit)) rest)).
  split; [apply (save_alert_history_run _ _ _ _ Hup) |].
  rewrite (get_alert_history_run _ _ _ _ _ Hup). cbn [redis].
  rewrite Hsort. unfold py_slice_to.
  destruct (0 <=? limit)%Z eqn:Hpos; [| lia].
  destruct (Z.to_nat limit) as [| n] eqn:Hn; [lia |].
  assert (Hkey : store !! key = Some (StoredHistory record))
    by apply lookup_insert_eq.
  clearbody store key. cbn. now rewrite Hkey.
Qed.

Lemma saved_record_comes_first_witness :
  exists st1 docs,
    save_alert_history Sample.world1 "u1"
      (SampleApi.record "2024-01-04T00:00:00") (SampleApi.over SampleApi.history)
    = (Ok true, st1)
    /\ get_alert_history Sample.world1 SampleApi.services "u1" 1 st1
       = (Ok (StoredHistory (SampleApi.record "2024-01-04T00:00:00") :: docs),
          st1).
Proof.
  apply (saved_record_comes_first Sample.world1 SampleApi.services "u1"
           (SampleApi.record "2024-01-04T00:00:00") 1
           (SampleApi.over SampleApi.history)
           eq_refl sample_keys_reply_ok eq_refl).
  - lia.
  - intros rest [doc Hdoc].
    destruct (sample_history_well_keyed _ _ Hdoc) as (record & -> & <-).
    revert Hdoc. cbn. unfold SampleApi.history.
    rewrite !lookup_insert_Some, lookup_singleton_Some.
    intros [[_ [= <-]] | [_ [[_ [= <-]] | [_ [_ [= <-]]]]]]; reflexivity.
Defined.

(** X21.  The history is read by key prefix, so it is not kept apart by
    user: a record saved for the user [u:v] is also returned to the user
    [u], whenever [limit] covers the keys under the prefix of [u]. *)
Theorem history_reaches_prefix_user
    (w : World) (sv : Services) (user_id other : string)
    (record : HistoryData) (st : State) :
  redis_down w = None ->
  keys_reply_ok sv ->
  glob_free user_id = true ->
  exists st1,
    save_alert_history w (user_id +:+ ":" +:+ other) record st = (Ok true, st1)
    /\ forall limit,
        (Z.of_nat (stored_under (history_prefix user_id) (redis st1))
         <= limit)%Z ->
        exists docs,
          get_alert_history w sv user_id limit st1 = (Ok docs, st1)
          /\ StoredHistory record ∈ docs.
Proof.
  intros Hup Hreply Huser.
  eexists. split; [apply (save_alert_history_run _ _ _ _ Hup) |].
  intros limit Hlimit. cbn [redis] in Hlimit.
  eexists. split; [apply (get_alert_history_run _ _ _ _ _ Hup) |]. cbn [redis].
  set (key := history_prefix (user_id +:+ ":" +:+ other)
              +:+ hist_timestamp record) in *.
  set (store := <[key := StoredHistory record]> (redis st)) in *.
  assert (Hfree : glob_free (history_prefix user_id) = true)
    by (unfold history_prefix; now rewrite !glob_free_app, Huser).
  apply list_elem_of_omap. exists key. split.
  - unfold py_slice_to. destruct (0 <=? limit)%Z eqn:Hpos; [| lia].
    rewrite take_ge.
    + rewrite sort_reverse_perm. apply (Hreply _ store Hfree). split.
      * unfold store. rewrite lookup_insert_eq. eauto.
      * exists (other +:+ ":" +:+ hist_timestamp record).
        unfold key, history_prefix. now rewrite !string_app_assoc.
    + rewrite (Permutation_length (sort_reverse_perm _)).
      rewrite (reply_length _ _ _ Hreply Hfree). lia.
  - unfold store. apply lookup_insert_eq.
Qed.

Lemma history_reaches_prefix_user_witness :
  exists st1,
    save_alert_history Sample.world1 ("u1" +:+ ":" +:+ "b")
      (SampleApi.record "2024-01-04T00:00:00") (SampleApi.over ∅)
    = (Ok true, st1)
    /\ forall limit,
        (Z.of_nat (stored_under (history_prefix "u1") (redis st1))
         <= limit)%Z ->
        exists docs,
          get_alert_history Sample.world1 SampleApi.services "u1" limit st1
          = (Ok docs, st1)
          /\ StoredHistory (SampleApi.record "2024-01-04T00:00:00") ∈ docs.
Proof.
  exact (history_reaches_prefix_user Sample.world1 SampleApi.services
           "u1" "b" (SampleApi.record "2024-01-04T00:00:00") (SampleApi.over ∅)
           eq_refl sample_keys_reply_ok eq_refl).
Defined.

(** ** Credentials, end to end *)

(** X22.  The credentials saved through [POST /api/keys] are the ones the
    next client for user "default" on that exchange is built with: on a
    cache miss, with a cipher that decrypts its own tokens and a
    constructor that succeeds, [get_exchange_client] returns a new client
    carrying that key and that secret. *)
Theorem saved_keys_build_the_client
    (w : World) (sv : Services) (api_key : ApiKeyModel) (st : State) :
  redis_down w = None ->
  fernet_decrypt w (fernet_encrypt sv (key_api_key api_key))
  = Some (key_api_key api_key) ->
  fernet_decrypt w (fernet_encrypt sv (key_api_secret api_key))
  = Some (key_api_secret api_key) ->
  ccxt_construct w (key_exchange api_key) (key_api_key api_key)
    (key_api_secret api_key) = None ->
  exchange_clients st !! client_key "default" (key_exchange api_key) = None ->
  exists st1 st2,
    add_api_key w sv api_key st
    = (Ok (true, "API keys saved successfully"), st1)
    /\ get_exchange_client w "default" (key_exchange api_key) st1
       = (Ok {| client_id := constructed st;
                client_exchange := key_exchange api_key;
                client_apiKey := key_api_key api_key;
                client_secret := key_api_secret api_key |}, st2).
Proof.
  intros Hup Hkey Hsecret Hclass Hmiss.
  unfold add_api_key, or_500, save_exchange_api_key, encrypt_data, bind, ret,
    redis_set.
  rewrite Hup. do 2 eexists. split; [reflexivity |].
  unfold get_exchange_client. fold (client_key "default" (key_exchange api_key)).
  cbn [exchange_clients]. rewrite Hmiss.
  unfold get_exchange_api_key, decrypt_data, new_client, cache_client,
    bind, ret, emit, redis_get.
  rewrite Hup. cbn. rewrite lookup_insert_eq, Hkey, Hsecret, Hclass.
  reflexivity.
Qed.

Lemma saved_keys_build_the_client_witness :
  exists st1 st2,
    add_api_key Sample.world1 SampleApi.services
      {| key_exchange := "binance"; key_api_key := "key";
         key_api_secret := "secret" |} (SampleApi.over ∅)
    = (Ok (true, "API keys saved successfully"), st1)
    /\ get_exchange_client Sample.world1 "default" "binance" st1
       = (Ok {| client_id := 0; client_exchange := "binance";
                client_apiKey := "key"; client_secret := "secret" |}, st2).
Proof.
  apply (saved_keys_build_the_client Sample.world1 SampleApi.services
           {| key_exchange := "binance"; key_api_key := "key";
              key_api_secret := "secret" |} (SampleApi.over ∅));
    reflexivity.
Defined.

(** X23.  Stored keys that the cipher no longer decrypts are not reported
    as missing: [GET /api/keys/{exchange}] raises 500 instead of answering
    [has_keys = false], and [get_exchange_client] raises the cipher's
    exception, which is no [HTTPException], instead of its 404. *)
Theorem undecryptable_keys
    (w : World) (sv : Services) (exchange : string) (st : State)
    (api_key_enc api_secret_enc : string) :
  redis_down w = None ->
  redis st !! ("user:default:exchange:" +:+ exchange)
  = Some (StoredKeys api_key_enc api_secret_enc) ->
  fernet_decrypt w api_key_enc = None ->
  get_api_key_status w sv exchange st
  = (Raise (HTTPException 500 ""), logged [VaultRead "default" exchange] st)
  /\ (exchange_clients st !! client_key "default" exchange = None ->
      get_exchange_client w "default" exchange st
      = (Raise (Exception ""), logged [VaultRead "default" exchange] st)).
Proof.
  intros Hup Hstored Hcipher.
  assert (Hread : get_exchange_api_key w "default" exchange st
                  = (Raise (Exception ""),
                     logged [VaultRead "default" exchange] st)).
  { unfold get_exchange_api_key, decrypt_data, bind, ret, raise, emit,
      redis_get.
    rewrite Hup. cbn.
    change ("user:" +:+ "default" +:+ ":exchange:" +:+ exchange)
      with ("user:default:exchange:" +:+ exchange).
    now rewrite Hstored, Hcipher. }
  split.
  - unfold get_api_key_status, or_500, bind. now rewrite Hread.
  - intros Hmiss. unfold get_exchange_client.
    fold (client_key "default" exchange). rewrite Hmiss.
    unfold bind. now rewrite Hread.
Qed.

Lemma undecryptable_keys_witness :
  get_api_key_status SampleApi.world_rekeyed SampleApi.services "binance"
    (SampleApi.over {[ "user:default:exchange:binance" := StoredKeys "key" "secret" ]})
  = (Raise (HTTPException 500 ""),
     logged [VaultRead "default" "binance"]
       (SampleApi.over
          {[ "user:default:exchange:binance" := StoredKeys "key" "secret" ]})).
Proof.
  apply (undecryptable_keys SampleApi.world_rekeyed SampleApi.services
           "binance"
           (SampleApi.over
              {[ "user:default:exchange:binance" := StoredKeys "key" "secret" ]})
           "key" "secret");
    reflexivity.
Defined.

(** ** What the webhook writes *)

(** X24.  The webhook handler writes to Redis under one key at most, the
    key of its own history record: no configuration and no key pair is
    ever changed by an alert. *)
Theorem webhook_writes_history_only
    (w : World) (alert : TradingViewAlertModel) (st : State)
    (o : outcome OrderResultModel) (st' : State) (key : string) :
  process_tradingview_alert w alert st = (o, st') ->
  key <> history_key w alert ->
  redis st' !! key = redis st !! key.
Proof.
  intros Hprocess Hkey. unfold process_tradingview_alert in Hprocess.
  destruct (alert_pipeline w alert st) as [[result | e] st1] eqn:Hrun.
  - injection Hprocess as <- <-.
    apply alert_pipeline_run in Hrun. inversion Hrun; subst.
    repeat match goal with
           | H : get_exchange_client _ _ _ _ = _ |- _ =>
               apply get_exchange_client_quiet in H as [? _]
           | H : resolve_quantity _ _ _ _ _ = _ |- _ =>
               apply resolve_quantity_quiet in H as [? _]
           | H : execute_order _ _ _ _ _ _ = _ |- _ =>
               apply execute_order_effect in H as [? _]
           end.
    cbn. rewrite lookup_insert_ne by congruence. congruence.
  - pose proof (pipeline_run_raise_redis _ _ _ _ _
                  (alert_pipeline_run _ _ _ _ _ Hrun)) as Hredis.
    destruct e as [status detail | msg].
    + injection Hprocess as <- <-. now rewrite Hredis.
    + unfold record_failure, save_alert_history, bind, redis_set, ret
        in Hprocess.
      cbn in Hprocess. destruct (redis_down w); injection Hprocess as <- <-.
      * now rewrite Hredis.
      * cbn. fold (history_key w alert).
        rewrite lookup_insert_ne by congruence. now rewrite Hredis.
Qed.

Lemma webhook_writes_history_only_witness :
  redis (snd (process_tradingview_alert Sample.world1 (Sample.alert None)
                Sample.state1))
    !! "user:u1:alert_config:c1"
  = redis Sample.state1 !! "user:u1:alert_config:c1".
Proof.
  apply (webhook_writes_history_only Sample.world1 (Sample.alert None)
           Sample.state1
           (fst (process_tradingview_alert Sample.world1 (Sample.alert None)
                   Sample.state1))
           (snd (process_tradingview_alert Sample.world1 (Sample.alert None)
                   Sample.state1))).
  - now destruct (process_tradingview_alert Sample.world1 (Sample.alert None)
                    Sample.state1).
  - discriminate.
Defined.
